(** * network_monitor.py: a shallow embedding and its properties

    The script pings hosts through [subprocess.run], reads the round-trip
    time out of the ping output with a regular expression, and prints and
    logs one line per host, either once ([single_check]) or in an endless
    loop ([monitor_hosts]).

    Layout of the development:
    - [Text]: Python [str] values as lists of code points, the few string
      operations the script uses;
    - [Re]: a backtracking matcher for the fragment of [re] the script's
      pattern needs;
    - [Float]: the non-negative IEEE-754 doubles [float()] returns on a
      digit string, with [bool()] and [repr()];
    - [Runtime]: the world the script runs in (clock, trace of effects), the
      environment that answers its calls, and a state-and-exception monad;
    - [Monitor]: the functions of the script;
    - [Observe]: what the properties speak about (the ping command, the
      verdict of a response, the parsed time, projections of the trace);
    - [Worlds]: concrete environments;
    - [Builtins], [Menu]: [str.strip], [int] and the menu of [main];
    - [Conduct], [Sessions]: what the further properties speak about, and
      concrete terminals;
    - the properties of the claims, then the further properties. *)

From Stdlib Require Import String Ascii DecimalString.
From Stdlib Require Import ZArith NArith List Bool Lia.
Import ListNotations.
Open Scope Z_scope.

(* ===================================================================== *)
(** * Text *)
(* ===================================================================== *)

Module Text.

(** A Python [str] is a sequence of Unicode code points. *)
Definition char := Z.
Definition str := list char.

(** An ASCII literal of the script. *)
Definition py (s : string) : str :=
  map (fun a => Z.of_N (N_of_ascii a)) (list_ascii_of_string s).

(** The two non-ASCII characters of the script's messages. *)
Definition check_mark : char := 0x2713.
Definition ballot_x : char := 0x2717.

Definition str_eqb (a b : str) : bool :=
  if list_eq_dec Z.eq_dec a b then true else false.

(** [s.startswith(p)]. *)
Fixpoint startswith (p s : str) : bool :=
  match p, s with
  | [], _ => true
  | _ :: _, [] => false
  | a :: p', b :: s' => (a =? b) && startswith p' s'
  end.

(** [p in s]: the substring test. *)
Fixpoint contains (p s : str) : bool :=
  startswith p s || match s with [] => false | _ :: s' => contains p s' end.

(** [sep.join(xs)]. *)
Fixpoint join (sep : str) (xs : list str) : str :=
  match xs with
  | [] => []
  | [x] => x
  | x :: rest => x ++ sep ++ join sep rest
  end.

(** [s * n] for a one-character string. *)
Definition times (s : str) (n : nat) : str := List.concat (repeat s n).

(** [format(s, "20")]: a string is left-aligned and padded with spaces up
    to the width; a longer string is kept whole. *)
Definition ljust (width : nat) (s : str) : str :=
  s ++ repeat 32 (width - length s).

(** [s.lower()] on the ASCII letters.  The script only compares the result
    with ["windows"]; no code point outside ASCII lowers to one of the
    letters of that word alone, so the comparison is decided by the ASCII
    letters. *)
Definition lower_char (c : char) : char :=
  if (65 <=? c) && (c <=? 90) then c + 32 else c.
Definition lower (s : str) : str := map lower_char s.

(** [str(n)] for an [int]. *)
Definition str_of_int (n : Z) : str :=
  py (NilEmpty.string_of_int (Z.to_int n)).

(** The Unicode decimal digits (general category Nd), which is what [\d]
    matches on a [str] pattern and what [float()] reads.  Every script's
    digits are ten consecutive code points; the table lists the code point
    of each zero (Unicode 14.0). *)
Definition digit_zeros : list Z :=
  [ 0x30; 0x660; 0x6f0; 0x7c0; 0x966; 0x9e6; 0xa66; 0xae6; 0xb66; 0xbe6;
    0xc66; 0xce6; 0xd66; 0xde6; 0xe50; 0xed0; 0xf20; 0x1040; 0x1090;
    0x17e0; 0x1810; 0x1946; 0x19d0; 0x1a80; 0x1a90; 0x1b50; 0x1bb0;
    0x1c40; 0x1c50; 0xa620; 0xa8d0; 0xa900; 0xa9d0; 0xa9f0; 0xaa50;
    0xabf0; 0xff10; 0x104a0; 0x10d30; 0x11066; 0x110f0; 0x11136; 0x111d0;
    0x112f0; 0x11450; 0x114d0; 0x11650; 0x116c0; 0x11730; 0x118e0;
    0x11950; 0x11c50; 0x11d50; 0x11da0; 0x16a60; 0x16ac0; 0x16b50;
    0x1d7ce; 0x1d7d8; 0x1d7e2; 0x1d7ec; 0x1d7f6; 0x1e140; 0x1e2f0;
    0x1e950; 0x1fbf0 ].

Fixpoint digit_in (zeros : list Z) (c : char) : option Z :=
  match zeros with
  | [] => None
  | z :: rest =>
      if (z <=? c) && (c <=? z + 9) then Some (c - z) else digit_in rest c
  end.

(** The value of a decimal digit, [None] for any other character. *)
Definition decimal_value (c : char) : option Z := digit_in digit_zeros c.

Definition isdecimal (c : char) : bool :=
  match decimal_value c with Some _ => true | None => false end.

End Text.
Import Text.

(* ===================================================================== *)
(** * Regular expressions *)
(* ===================================================================== *)

Module Re.

(** The constructs of [re] that occur in the script's pattern.  [Maybe] and
    [Many1] are the greedy [?] and [+]; [Group] is a capturing group (the
    pattern has one, so one capture is recorded). *)
Inductive regex : Type :=
| Lit (c : char)
| Class (p : char -> bool)
| Cat (r1 r2 : regex)
| Maybe (r : regex)
| Many1 (r : regex)
| Group (r : regex).

(** A matcher takes the text, the capture so far and the continuation:
    what remains to be matched afterwards.  It answers [None] when no way
    of matching lets the continuation succeed. *)
Definition matcher (R : Type) : Type :=
  str -> option str -> (str -> option str -> option R) -> option R.

(** Greedy repetition, one or more times: after each round of [step] one
    more round is tried first, and given up for the continuation when it
    leads nowhere.  A round that consumes nothing ends the repetition;
    [n] bounds the rounds and is the length of the text. *)
Fixpoint iterate {R : Type} (step : matcher R) (n : nat) : matcher R :=
  fun s g k =>
    step s g (fun s1 g1 =>
      match n with
      | O => k s1 g1
      | S n' =>
          if (length s1 <? length s)%nat
          then match iterate step n' s1 g1 k with
               | Some m => Some m
               | None => k s1 g1
               end
          else k s1 g1
      end).

(** The backtracking matcher, in continuation-passing style: an
    alternative is abandoned when the continuation fails.  Greedy operators
    try the longer alternative first.  The captured text is the part of
    the input the group consumed. *)
Fixpoint backtrack {R : Type} (r : regex) : matcher R :=
  match r with
  | Lit c => fun s g k =>
      match s with
      | x :: s' => if x =? c then k s' g else None
      | [] => None
      end
  | Class p => fun s g k =>
      match s with
      | x :: s' => if p x then k s' g else None
      | [] => None
      end
  | Cat r1 r2 => fun s g k =>
      backtrack r1 s g (fun s1 g1 => backtrack r2 s1 g1 k)
  | Maybe r1 => fun s g k =>
      match backtrack r1 s g k with
      | Some m => Some m
      | None => k s g
      end
  | Many1 r1 => fun s g k => iterate (backtrack r1) (length s) s g k
  | Group r1 => fun s g k =>
      backtrack r1 s g (fun s1 _ =>
        k s1 (Some (firstn (length s - length s1) s)))
  end.

(** A match object: the text of group 1 ([None] if the group took no part
    in the match). *)
Record match_object : Type := { group1 : option str }.

(** [re.match]: a match at the start of the text. *)
Definition match_ (r : regex) (s : str) : option match_object :=
  backtrack r s None (fun _ g => Some {| group1 := g |}).

(** [re.search]: the match at the leftmost position that has one. *)
Fixpoint search (r : regex) (s : str) : option match_object :=
  match match_ r s with
  | Some m => Some m
  | None =>
      match s with
      | [] => None
      | _ :: s' => search r s'
      end
  end.

Fixpoint lits (s : str) (r : regex) : regex :=
  match s with
  | [] => r
  | c :: s' => Cat (Lit c) (lits s' r)
  end.

End Re.

(* ===================================================================== *)
(** * Floating-point numbers *)
(* ===================================================================== *)

Module Float.

(** The values [float()] can return on a string of digits: the
    non-negative finite doubles, [Finite m e] standing for [m * 2^e] with
    [0 <= m < 2^53] and [-1074 <= e <= 971], and infinity. *)
Inductive pyfloat : Type :=
| Finite (m e : Z)
| Inf.

Definition pyfloat_eqb (x y : pyfloat) : bool :=
  match x, y with
  | Finite m e, Finite m' e' => (m =? m') && (e =? e')
  | Inf, Inf => true
  | _, _ => false
  end.

Definition zero : pyfloat := Finite 0 (-1074).

(** [num / den] rounded to the nearest integer, ties to even. *)
Definition round_div (num den : Z) : Z :=
  let q := num / den in
  let r := num mod den in
  if 2 * r <? den then q
  else if 2 * r =? den then (if Z.even q then q else q + 1)
  else q + 1.

(** [num / (den * base^e)] as a fraction of integers. *)
Definition scaled (base num den e : Z) : Z * Z :=
  if 0 <=? e then (num, den * base ^ e) else (num * base ^ (- e), den).

(** The double nearest to [num / den] ([num >= 0], [den > 0]), as the
    correctly rounded conversion of [float()] gives it. *)
Definition of_ratio (num den : Z) : pyfloat :=
  if num =? 0 then zero
  else
    let l := Z.log2 num - Z.log2 den in
    let '(a, b) := scaled 2 num den l in
    let l := if b <=? a then l else l - 1 in
    let e := Z.max (l - 52) (-1074) in
    let '(a, b) := scaled 2 num den e in
    let m := round_div a b in
    let '(m, e) := if m =? 2 ^ 53 then (2 ^ 52, e + 1) else (m, e) in
    if 971 <? e then Inf else Finite m e.

(** Reading a run of decimal digits. *)
Fixpoint digits_value (acc : Z) (s : str) : option Z :=
  match s with
  | [] => Some acc
  | c :: s' =>
      match decimal_value c with
      | Some d => digits_value (10 * acc + d) s'
      | None => None
      end
  end.

Fixpoint split_point (s : str) : str * option str :=
  match s with
  | [] => ([], None)
  | c :: s' =>
      if c =? 46 then ([], Some s')
      else let '(a, b) := split_point s' in (c :: a, b)
  end.

(** [float(s)] on the texts [digits], [digits.digits], [digits.] and
    [.digits]; [None] is the [ValueError] of a text without digits or with
    another character.  (Signs, exponents, underscores, surrounding blanks,
    [inf] and [nan], which [float()] reads too, are outside the model: the
    script's pattern cannot capture them.) *)
Definition float_of_str (s : str) : option pyfloat :=
  let '(ip, rest) := split_point s in
  let fp := match rest with Some fp => fp | None => [] end in
  match ip ++ fp with
  | [] => None
  | ds =>
      match digits_value 0 ds with
      | Some n => Some (of_ratio n (10 ^ Z.of_nat (length fp)))
      | None => None
      end
  end.

(** [bool(x)]: every float but zero is true. *)
Definition truthy (x : pyfloat) : bool :=
  match x with
  | Finite m _ => negb (m =? 0)
  | Inf => true
  end.

(** ** [repr] *)

(** [floor (log10 (num / den))], searched upwards from an estimate below it. *)
Fixpoint ilog10_from (fuel : nat) (num den t : Z) : Z :=
  match fuel with
  | O => t
  | S fuel' =>
      let '(a, b) := scaled 10 num den (t + 1) in
      if b <=? a then ilog10_from fuel' num den (t + 1) else t
  end.

Definition ilog10 (num den : Z) : Z :=
  ilog10_from 8 num den ((Z.log2 num - Z.log2 den) * 1233 / 4096 - 3).

(** The decimal [c * 10^s] read back as a double. *)
Definition of_decimal (c s : Z) : pyfloat :=
  if 0 <=? s then of_ratio (c * 10 ^ s) 1 else of_ratio c (10 ^ (- s)).

(** The shortest decimal [c * 10^s] that reads back as [Finite m e]: for
    each number of digits [p], from [17 - fuel + 1] on, the two [p]-digit
    decimals around the value are tried, the nearer first. *)
Fixpoint shortest (fuel : nat) (p : Z) (f : pyfloat) (num den t : Z) : Z * Z :=
  let s := t - p + 1 in
  let '(a, b) := scaled 10 num den s in
  let lo := a / b in
  let hi := lo + 1 in
  match fuel with
  | O => (round_div a b, s)
  | S fuel' =>
      let lo_ok := pyfloat_eqb (of_decimal lo s) f in
      let hi_ok := pyfloat_eqb (of_decimal hi s) f in
      if lo_ok && hi_ok then (round_div a b, s)
      else if lo_ok then (lo, s)
      else if hi_ok then (hi, s)
      else shortest fuel' (p + 1) f num den t
  end.

Fixpoint strip_zeros (fuel : nat) (c s : Z) : Z * Z :=
  match fuel with
  | O => (c, s)
  | S fuel' => if c mod 10 =? 0 then strip_zeros fuel' (c / 10) (s + 1) else (c, s)
  end.

Definition zeros (n : Z) : str := repeat 48 (Z.to_nat n).

(** [repr(x)], which is also [str(x)] and what an f-string field shows:
    the shortest digits that read back as [x], in positional notation when
    the decimal point falls within [-4 < point <= 16], in exponent
    notation otherwise. *)
Definition repr (x : pyfloat) : str :=
  match x with
  | Inf => py "inf"
  | Finite m e =>
      if m =? 0 then py "0.0"
      else
        let '(num, den) := scaled 2 m 1 (- e) in
        let t := ilog10 num den in
        let '(c, s) := shortest 17 1 x num den t in
        let '(c, s) := strip_zeros 20 c s in
        let digits := str_of_int c in
        let n := Z.of_nat (length digits) in
        let point := n + s in
        if (-4 <? point) && (point <=? 16) then
          if point <=? 0 then py "0." ++ zeros (- point) ++ digits
          else if n <=? point then digits ++ zeros (point - n) ++ py ".0"
          else firstn (Z.to_nat point) digits ++ py "."
               ++ skipn (Z.to_nat point) digits
        else
          let x10 := point - 1 in
          firstn 1 digits
          ++ (if 1 <? n then py "." ++ skipn 1 digits else [])
          ++ py "e" ++ (if 0 <=? x10 then py "+" else py "-")
          ++ (if Z.abs x10 <? 10 then py "0" else [])
          ++ str_of_int (Z.abs x10)
  end.

End Float.
Import Float.

(* ===================================================================== *)
(** * The runtime: exceptions, the world, the environment *)
(* ===================================================================== *)

Module Runtime.

(** The exception classes the script names or can meet, with the base
    class of each as the interpreter declares them. *)
Inductive exn_class : Type :=
| BaseException | Exception | KeyboardInterrupt | SystemExit
| SubprocessError | TimeoutExpired
| OSError | FileNotFoundError | PermissionError
| ValueError | UnicodeError | UnicodeDecodeError | TypeError | MemoryError.

Definition base (c : exn_class) : option exn_class :=
  match c with
  | BaseException => None
  | Exception | KeyboardInterrupt | SystemExit => Some BaseException
  | SubprocessError | OSError | ValueError | TypeError | MemoryError =>
      Some Exception
  | TimeoutExpired => Some SubprocessError
  | FileNotFoundError | PermissionError => Some OSError
  | UnicodeError => Some ValueError
  | UnicodeDecodeError => Some UnicodeError
  end.

Definition exn_class_eqb (c d : exn_class) : bool :=
  match c, d with
  | BaseException, BaseException | Exception, Exception
  | KeyboardInterrupt, KeyboardInterrupt | SystemExit, SystemExit
  | SubprocessError, SubprocessError | TimeoutExpired, TimeoutExpired
  | OSError, OSError | FileNotFoundError, FileNotFoundError
  | PermissionError, PermissionError | ValueError, ValueError
  | UnicodeError, UnicodeError
  | UnicodeDecodeError, UnicodeDecodeError | TypeError, TypeError
  | MemoryError, MemoryError => true
  | _, _ => false
  end.

(** [issubclass(c, d)]; no class above is more than four steps below
    [BaseException]. *)
Fixpoint issubclass_upto (depth : nat) (c d : exn_class) : bool :=
  exn_class_eqb c d ||
  match depth, base c with
  | S depth', Some b => issubclass_upto depth' b d
  | _, _ => false
  end.

Definition issubclass : exn_class -> exn_class -> bool := issubclass_upto 4.

(** A raised exception: its class and the text [str(e)] gives. *)
Record exn : Type := { class_of : exn_class; message : str }.

Definition isinstance (e : exn) (c : exn_class) : bool :=
  issubclass (class_of e) c.

(** What the script does to the outside, in the order it does it.  Times
    are readings of the clock, in milliseconds. *)
Inductive event : Type :=
| Spawn (command : list str) (started finished : Z)
| Printed (text : str)
| Appended (file entry : str)
| Sleep (seconds : Z) (started finished : Z).

Record World : Type := { clock : Z; trace : list event }.

Definition emit (ev : event) (w : World) : World :=
  {| clock := clock w; trace := trace w ++ [ev] |}.

Definition advance (ms : Z) (w : World) : World :=
  {| clock := clock w + ms; trace := trace w |}.

(** The object [subprocess.run] returns. *)
Record completed_process : Type := { returncode : Z; stdout : str }.

(** How a child process ends, left to itself: it exits, or
    [subprocess.run] raises (the binary is missing, permission is denied,
    the output cannot be decoded, the user presses Ctrl+C, ...). *)
Inductive ending : Type :=
| Exits (p : completed_process)
| Fails (e : exn).

Record response : Type := { took : N; ending_of : ending }.

(** The environment answers every call the script makes to the outside.
    An answer may depend on all that happened before (the world at the time
    of the call).
    - [platform_system]: [platform.system()];
    - [child]: how the command would end and after how many milliseconds;
    - [interrupt]: whether Ctrl+C arrives during a sleep, and after how
      many milliseconds;
    - [open_error]: the exception of opening or writing the file, if any;
    - [strftime]: the local time of a clock reading, rendered with
      ["%Y-%m-%d %H:%M:%S"]. *)
Record Env : Type := {
  platform_system : str;
  child : World -> list str -> response;
  interrupt : World -> option N;
  open_error : World -> str -> option exn;
  strftime : Z -> str
}.

(** ** The monad of the script's functions *)

(** A call returns, raises, or is still running when the fuel of a
    [while True] loop of the model is used up.  The world is kept in every
    case: what a function did before raising stays done. *)
Inductive result (A : Type) : Type :=
| Return (a : A)
| Raise (e : exn)
| Running.
Arguments Return {A} a.
Arguments Raise {A} e.
Arguments Running {A}.

Definition M (A : Type) : Type := World -> result A * World.

Definition ret {A} (a : A) : M A := fun w => (Return a, w).

Definition raise {A} (e : exn) : M A := fun w => (Raise e, w).

Definition bind {A B} (m : M A) (k : A -> M B) : M B :=
  fun w =>
    match m w with
    | (Return a, w') => k a w'
    | (Raise e, w') => (Raise e, w')
    | (Running, w') => (Running, w')
    end.

Declare Scope py_scope.
Delimit Scope py_scope with py.
Notation "x <- m ;; k" := (bind m (fun x => k))
  (at level 61, m at next level, right associativity) : py_scope.
Notation "m ;; k" := (bind m (fun _ => k))
  (at level 61, right associativity) : py_scope.
Open Scope py_scope.

(** [try: body except C1: h1 except C2 as e: h2 ...]: the first clause
    whose class the exception is an instance of handles it. *)
Fixpoint find_handler {A} (clauses : list (exn_class * (exn -> M A)))
    (e : exn) : option (M A) :=
  match clauses with
  | [] => None
  | (c, h) :: rest =>
      if isinstance e c then Some (h e) else find_handler rest e
  end.

Definition try_except {A} (body : M A)
    (clauses : list (exn_class * (exn -> M A))) : M A :=
  fun w =>
    match body w with
    | (Raise e, w') =>
        match find_handler clauses e with
        | Some h => h w'
        | None => (Raise e, w')
        end
    | other => other
    end.

(** [for x in xs: body], where the body may [return] from the enclosing
    function: [Some r] is that return, [None] is falling off the end. *)
Fixpoint for_ {A R} (xs : list A) (body : A -> M (option R)) : M (option R) :=
  match xs with
  | [] => ret None
  | x :: rest =>
      r <- body x ;;
      match r with
      | Some v => ret (Some v)
      | None => for_ rest body
      end
  end.

(** [for x in xs: body] without [return]. *)
Fixpoint for_each {A} (xs : list A) (body : A -> M unit) : M unit :=
  match xs with
  | [] => ret tt
  | x :: rest => body x ;; for_each rest body
  end.

(** [while True: body]: the loop is left only by an exception; the model
    runs at most [fuel] iterations and is [Running] after them. *)
Fixpoint while_true (fuel : nat) (body : M unit) : M unit :=
  match fuel with
  | O => fun w => (Running, w)
  | S fuel' => body ;; while_true fuel' body
  end.

(** [if c: body] *)
Definition when (c : bool) (body : M unit) : M unit :=
  if c then body else ret tt.

Section Calls.

Variable env : Env.

(** [print(text)]; writing to the console is taken to succeed. *)
Definition print (text : str) : M unit :=
  fun w => (Return tt, emit (Printed text) w).

(** [datetime.datetime.now().strftime("%Y-%m-%d %H:%M:%S")]. *)
Definition now_strftime : M str :=
  fun w => (Return (strftime env (clock w)), w).

(** [subprocess.run(command, capture_output=True, text=True,
    timeout=seconds)]: the call blocks until the child ends, or until the
    timeout, at which the child is killed and [TimeoutExpired] raised.
    (The moment it takes to kill the child and collect it is not
    counted.) *)
Definition subprocess_run (command : list str) (seconds : Z)
    : M completed_process :=
  fun w =>
    let r := child env w command in
    let limit := 1000 * seconds in
    let used := Z.min (Z.of_N (took r)) limit in
    let w' := advance used (emit (Spawn command (clock w) (clock w + used)) w) in
    if limit <? Z.of_N (took r)
    then (Raise {| class_of := TimeoutExpired; message := py "timed out" |}, w')
    else match ending_of r with
         | Exits p => (Return p, w')
         | Fails e => (Raise e, w')
         end.

(** [time.sleep(seconds)]: a negative length is a [ValueError]; Ctrl+C
    during the sleep raises [KeyboardInterrupt].  (A length too long for
    the system, which the call refuses, is left out.) *)
Definition time_sleep (seconds : Z) : M unit :=
  fun w =>
    if seconds <? 0
    then (Raise {| class_of := ValueError;
                   message := py "sleep length must be non-negative" |}, w)
    else
      let whole := 1000 * seconds in
      match interrupt env w with
      | Some n =>
          if Z.of_N n <? whole
          then (Raise {| class_of := KeyboardInterrupt; message := [] |},
                advance (Z.of_N n)
                  (emit (Sleep seconds (clock w) (clock w + Z.of_N n)) w))
          else (Return tt,
                advance whole (emit (Sleep seconds (clock w) (clock w + whole)) w))
      | None =>
          (Return tt,
           advance whole (emit (Sleep seconds (clock w) (clock w + whole)) w))
      end.

(** [with open(file, "a") as f: f.write(entry)].  (The entry is taken to
    reach the file whole or not at all.) *)
Definition append_to (file entry : str) : M unit :=
  fun w =>
    match open_error env w file with
    | Some e => (Raise e, w)
    | None => (Return tt, emit (Appended file entry) w)
    end.

End Calls.

End Runtime.
Import Runtime.

(* ===================================================================== *)
(** * The script *)
(* ===================================================================== *)

Module Monitor.

Import Re.

(** The pattern [r'time[<=](\d+(?:\.\d+)?)m?s'] of [get_response_time]. *)
Definition number : regex :=
  Cat (Many1 (Class isdecimal)) (Maybe (Cat (Lit 46) (Many1 (Class isdecimal)))).

Definition time_pattern : regex :=
  lits (py "time")
    (Cat (Class (fun c => (c =? 60) || (c =? 61)))
       (Cat (Group number)
          (Cat (Maybe (Lit 109)) (Lit 115)))).

(** [float(text)], raising [ValueError] where [float()] does. *)
Definition float_ (text : str) : M pyfloat :=
  match float_of_str text with
  | Some x => ret x
  | None =>
      raise {| class_of := ValueError;
               message := py "could not convert string to float" |}
  end.

(** [time_match.group(1)]; a group that took no part in the match gives
    [None], on which [float()] raises [TypeError]. *)
Definition float_of_group (m : match_object) : M pyfloat :=
  match group1 m with
  | Some text => float_ text
  | None =>
      raise {| class_of := TypeError;
               message := py "float() argument must be a string or a real number" |}
  end.

(** Truth value of an optional float: [None] and [0.0] are false. *)
Definition truth (x : option pyfloat) : bool :=
  match x with
  | Some v => truthy v
  | None => false
  end.

(** What an f-string field shows for an optional float. *)
Definition str_ (x : option pyfloat) : str :=
  match x with
  | Some v => repr v
  | None => py "None"
  end.

Definition default_log_file : str := py "network_monitor.log".

Section Script.

Variable env : Env.

(** [ping_host(host)], lines 14-31. *)
Definition ping_host (host : str) : M bool :=
  let param :=
    if str_eqb (lower (platform_system env)) (py "windows")
    then py "-n" else py "-c" in
  let command := [py "ping"; param; py "1"; host] in
  try_except
    (result <- subprocess_run env command 10 ;;
     ret (returncode result =? 0))
    [ (TimeoutExpired, fun _ => ret false);
      (Exception, fun _ => ret false) ].

(** [get_response_time(host)], lines 33-53. *)
Definition get_response_time (host : str) : M (option pyfloat) :=
  let param :=
    if str_eqb (lower (platform_system env)) (py "windows")
    then py "-n" else py "-c" in
  let command := [py "ping"; param; py "1"; host] in
  try_except
    (result <- subprocess_run env command 10 ;;
     if returncode result =? 0 then
       let output := stdout result in
       if contains (py "time=") output then
         match search time_pattern output with
         | Some time_match =>
             x <- float_of_group time_match ;;
             ret (Some x)
         | None => ret None
         end
       else ret None
     else ret None)
    [ (Exception, fun _ => ret None) ].

(** [check_internet_connection()], lines 55-64. *)
Definition test_hosts : list str :=
  [py "8.8.8.8"; py "1.1.1.1"; py "google.com"].

Definition check_internet_connection : M bool :=
  r <- for_ test_hosts (fun host =>
         up <- ping_host host ;;
         if up then ret (Some true) else ret None) ;;
  match r with
  | Some v => ret v
  | None => ret false
  end.

(** [log_result(message, log_file)], lines 66-77. *)
Definition log_result (message_ : str) (log_file : str) : M unit :=
  timestamp <- now_strftime env ;;
  let log_entry := py "[" ++ timestamp ++ py "] " ++ message_ ++ [10] in
  try_except
    (append_to env log_file log_entry)
    [ (Exception, fun e =>
         print (py "Error writing to log file: " ++ message e)) ].

(** The status line of one host in [monitor_hosts], lines 105-118. *)
Definition monitor_host (log_to_file : bool) (host : str) : M unit :=
  up <- ping_host host ;;
  if up then
    response_time <- get_response_time host ;;
    let status_msg :=
      if truth response_time
      then [check_mark] ++ py " " ++ host ++ py ": REACHABLE ("
           ++ str_ response_time ++ py "ms)"
      else [check_mark] ++ py " " ++ host ++ py ": REACHABLE" in
    print status_msg ;;
    when log_to_file (log_result status_msg default_log_file)
  else
    let status_msg := [ballot_x] ++ py " " ++ host ++ py ": UNREACHABLE" in
    print status_msg ;;
    when log_to_file (log_result status_msg default_log_file).

(** The checks of one turn of the [while True] loop of [monitor_hosts],
    lines 90-118. *)
Definition monitor_checks (hosts : list str) (log_to_file : bool) : M unit :=
  timestamp <- now_strftime env ;;
  print ([10] ++ py "--- Network Check at " ++ timestamp ++ py " ---") ;;
  online <- check_internet_connection ;;
  (if online then
     print ([check_mark] ++ py " Internet connection: ONLINE") ;;
     when log_to_file
       (log_result (py "Internet connection: ONLINE") default_log_file)
   else
     print ([ballot_x] ++ py " Internet connection: OFFLINE") ;;
     when log_to_file
       (log_result (py "Internet connection: OFFLINE") default_log_file)) ;;
  for_each hosts (monitor_host log_to_file).

(** One turn of the loop, lines 90-121: the checks, then the sleep. *)
Definition monitor_round (hosts : list str) (interval : Z)
    (log_to_file : bool) : M unit :=
  monitor_checks hosts log_to_file ;;
  print ([10] ++ py "Next check in " ++ str_of_int interval ++ py " seconds...") ;;
  time_sleep env interval.

(** [monitor_hosts(hosts, interval, log_to_file)], lines 79-126; [fuel]
    bounds the turns of the loop the model runs. *)
Definition monitor_hosts (fuel : nat) (hosts : list str) (interval : Z)
    (log_to_file : bool) : M unit :=
  print (py "Starting Network Monitor...") ;;
  print (py "Monitoring hosts: " ++ join (py ", ") hosts) ;;
  print (py "Check interval: " ++ str_of_int interval ++ py " seconds") ;;
  print (py "Press Ctrl+C to stop monitoring" ++ [10]) ;;
  try_except
    (while_true fuel (monitor_round hosts interval log_to_file))
    [ (KeyboardInterrupt, fun _ =>
         print ([10; 10] ++ py "Monitoring stopped by user.") ;;
         when log_to_file
           (log_result (py "Network monitoring stopped by user")
              default_log_file)) ].

(** The status line of one host in [single_check], lines 144-151. *)
Definition single_host (host : str) : M unit :=
  up <- ping_host host ;;
  if up then
    response_time <- get_response_time host ;;
    if truth response_time
    then print (ljust 20 host ++ py " " ++ [check_mark]
                ++ py " REACHABLE (" ++ str_ response_time ++ py "ms)")
    else print (ljust 20 host ++ py " " ++ [check_mark] ++ py " REACHABLE")
  else
    print (ljust 20 host ++ py " " ++ [ballot_x] ++ py " UNREACHABLE").

(** [single_check(hosts)], lines 128-151. *)
Definition single_check (hosts : list str) : M unit :=
  timestamp <- now_strftime env ;;
  print (py "Network Status Check - " ++ timestamp) ;;
  print (times (py "=") 50) ;;
  online <- check_internet_connection ;;
  (if online then
     print (py "Internet Connection: " ++ [check_mark] ++ py " ONLINE")
   else
     print (py "Internet Connection: " ++ [ballot_x] ++ py " OFFLINE")) ;;
  print ([10] ++ py "Host Connectivity:") ;;
  for_each hosts single_host.

End Script.

End Monitor.
Import Monitor.

(* ===================================================================== *)
(** * Observations *)
(* ===================================================================== *)

Module Observe.

(** The time value the script reads out of a ping output (lines 45-50);
    [None] when it reads none. *)
Definition parsed_time (output : str) : option pyfloat :=
  if contains (py "time=") output then
    match Re.search time_pattern output with
    | Some time_match =>
        match Re.group1 time_match with
        | Some text => float_of_str text
        | None => None
        end
    | None => None
    end
  else None.

(** The verdict on a response of the ping facility, under the ten seconds
    the script allows. *)
Definition timed_out (r : response) : bool := 10000 <? Z.of_N (took r).

Definition ping_time (r : response) : Z := Z.min (Z.of_N (took r)) 10000.

(** The facility reports success: the child ends in time with exit code 0. *)
Definition succeeds (r : response) : bool :=
  negb (timed_out r) &&
  match ending_of r with
  | Exits p => returncode p =? 0
  | Fails _ => false
  end.

(** The facility fails: the timeout expires, the exit code is not 0, or
    [subprocess.run] raises an exception of class [Exception] (missing
    binary, permission, decoding, memory, ...). *)
Definition fails (r : response) : bool :=
  timed_out r ||
  match ending_of r with
  | Exits p => negb (returncode p =? 0)
  | Fails e => isinstance e Exception
  end.

(** The call is cut short by an exception outside [Exception]
    ([KeyboardInterrupt], [SystemExit]). *)
Definition cancelled (r : response) : option exn :=
  if timed_out r then None
  else match ending_of r with
       | Exits _ => None
       | Fails e => if isinstance e Exception then None else Some e
       end.

(** The latency a response carries for the script. *)
Definition latency (r : response) : option pyfloat :=
  if succeeds r then
    match ending_of r with
    | Exits p => parsed_time (stdout p)
    | Fails _ => None
    end
  else None.

(** The decimal digits of a time value. *)
Definition digits (s : str) : Prop := s <> [] /\ Forall (fun c => isdecimal c = true) s.

(** An integer or fractional time value. *)
Definition number_text (s : str) : Prop :=
  digits s \/ exists ip fp, digits ip /\ digits fp /\ s = ip ++ [46] ++ fp.

(** What the script found out about one host: the verdict of
    [ping_host] and, for a reachable host, what [get_response_time]
    returned. *)
Inductive status : Type :=
| Unreachable
| Reachable (response_time : option pyfloat).

(** The line [single_check] prints for a host. *)
Definition single_line (host : str) (st : status) : str :=
  match st with
  | Unreachable => ljust 20 host ++ py " " ++ [ballot_x] ++ py " UNREACHABLE"
  | Reachable t =>
      if truth t
      then ljust 20 host ++ py " " ++ [check_mark] ++ py " REACHABLE ("
           ++ str_ t ++ py "ms)"
      else ljust 20 host ++ py " " ++ [check_mark] ++ py " REACHABLE"
  end.

(** The line [monitor_hosts] prints and logs for a host. *)
Definition monitor_line (host : str) (st : status) : str :=
  match st with
  | Unreachable => [ballot_x] ++ py " " ++ host ++ py ": UNREACHABLE"
  | Reachable t =>
      if truth t
      then [check_mark] ++ py " " ++ host ++ py ": REACHABLE ("
           ++ str_ t ++ py "ms)"
      else [check_mark] ++ py " " ++ host ++ py ": REACHABLE"
  end.

(** ** Projections of a trace *)

Definition is_sleep (ev : event) : bool :=
  match ev with Sleep _ _ _ => true | _ => false end.

Definition commands (tr : list event) : list (list str) :=
  flat_map (fun ev => match ev with Spawn c _ _ => [c] | _ => [] end) tr.

Definition printed (tr : list event) : list str :=
  flat_map (fun ev => match ev with Printed t => [t] | _ => [] end) tr.

Definition sleeps (tr : list event) : list Z :=
  flat_map (fun ev => match ev with Sleep s _ _ => [s] | _ => [] end) tr.

(** The time the spawned commands of a trace took, added up. *)
Definition spawn_time (tr : list event) : Z :=
  fold_right (fun ev acc =>
    match ev with Spawn _ t0 t1 => (t1 - t0) + acc | _ => acc end) 0 tr.

(** The longest single command of a trace. *)
Definition longest_spawn (tr : list event) : Z :=
  fold_right (fun ev acc =>
    match ev with Spawn _ t0 t1 => Z.max (t1 - t0) acc | _ => acc end) 0 tr.

(** [chained t0 tr t1]: from clock [t0] the events of [tr] happen one
    after the other, each timed event starting at the instant the one
    before it finished, and the clock reads [t1] after the last. *)
Inductive chained : Z -> list event -> Z -> Prop :=
| chained_nil t : chained t [] t
| chained_spawn t c t' tr t1 :
    t <= t' -> chained t' tr t1 -> chained t (Spawn c t t' :: tr) t1
| chained_sleep t s t' tr t1 :
    t <= t' -> chained t' tr t1 -> chained t (Sleep s t t' :: tr) t1
| chained_print t x tr t1 :
    chained t tr t1 -> chained t (Printed x :: tr) t1
| chained_appended t f x tr t1 :
    chained t tr t1 -> chained t (Appended f x :: tr) t1.

Definition spawn_spans (tr : list event) : list (Z * Z) :=
  flat_map (fun ev => match ev with Spawn _ t0 t1 => [(t0, t1)] | _ => [] end) tr.

(** The headers of the rounds [monitor_hosts] printed. *)
Definition round_headers (tr : list event) : list str :=
  filter (startswith ([10] ++ py "--- Network Check at ")) (printed tr).

(** The footprint of a function: from any world it only adds events to
    the trace, chained from the clock of the call to the clock of its end,
    and every one of them satisfies [P]. *)
Definition steps {A} (P : event -> Prop) (m : M A) : Prop :=
  forall w, exists evs,
    trace (snd (m w)) = trace w ++ evs
    /\ chained (clock w) evs (clock (snd (m w)))
    /\ Forall P evs.

Definition no_sleep (ev : event) : Prop := is_sleep ev = false.

(** A schedule that counts the interval from the start of a round: the
    next round starts when the interval has passed since the start, or at
    the end of the round if that is later. *)
Definition interval_from_start (round_start round_end interval : Z) : Z :=
  Z.max (round_start + 1000 * interval) round_end.

(** The text does not begin with a decimal digit. *)
Definition not_digit_first (s : str) : Prop :=
  match s with
  | [] => True
  | c :: _ => isdecimal c = false
  end.

Section Env.

Variable env : Env.

(** The command both [ping_host] and [get_response_time] run. *)
Definition ping_command (host : str) : list str :=
  [ py "ping";
    if str_eqb (lower (platform_system env)) (py "windows")
    then py "-n" else py "-c";
    py "1"; host ].

(** The response to a ping of [host] issued in world [w]. *)
Definition ping_response (w : World) (host : str) : response :=
  child env w (ping_command host).

(** The world after that ping. *)
Definition after_ping (w : World) (host : str) : World :=
  let used := ping_time (ping_response w host) in
  advance used
    (emit (Spawn (ping_command host) (clock w) (clock w + used)) w).

(** The commands the script runs for a host of a given status: one ping
    for the verdict and, after a positive verdict, one for the time. *)
Definition probe_commands (host : str) (st : status) : list (list str) :=
  match st with
  | Unreachable => [ping_command host]
  | Reachable _ => [ping_command host; ping_command host]
  end.

(** No call of [subprocess.run] is cut short by Ctrl+C or the like. *)
Definition uninterrupted : Prop :=
  forall w command, cancelled (child env w command) = None.

(** The anchors the connectivity check probes one after the other, and the
    world in which the turn of each comes. *)
Definition anchor_worlds (w : World) : list (str * World) :=
  let w1 := after_ping w (py "8.8.8.8") in
  let w2 := after_ping w1 (py "1.1.1.1") in
  [ (py "8.8.8.8", w); (py "1.1.1.1", w1); (py "google.com", w2) ].

(** An anchor is reachable when the ping of its turn succeeds. *)
Definition anchor_reachable (a : str * World) : bool :=
  succeeds (ping_response (snd a) (fst a)).

(** The anchors the check gets to: up to the first reachable one. *)
Fixpoint probed (anchors : list (str * World)) : list (str * World) :=
  match anchors with
  | [] => []
  | a :: rest => if anchor_reachable a then [a] else a :: probed rest
  end.

End Env.

End Observe.
Import Observe.

(* ===================================================================== *)
(** * Concrete environments *)
(* ===================================================================== *)

Module Worlds.

Definition start : World := {| clock := 0; trace := [] |}.

(** An environment in which every command ends the same way. *)
Definition constant (r : response) : Env :=
  {| platform_system := py "Linux";
     child := fun _ _ => r;
     interrupt := fun _ => None;
     open_error := fun _ _ => None;
     strftime := str_of_int |}.

(** Every ping exits with code 1 after two seconds. *)
Definition all_down : Env :=
  constant {| took := 2000;
              ending_of := Exits {| returncode := 1; stdout := [] |} |}.

(** No ping answers: every child outlives the timeout. *)
Definition all_silent : Env :=
  constant {| took := 15000;
              ending_of := Exits {| returncode := 0; stdout := [] |} |}.

(** The ping binary is missing. *)
Definition no_ping : Env :=
  constant {| took := 0;
              ending_of := Fails {| class_of := FileNotFoundError;
                                    message := py "No such file or directory: 'ping'" |} |}.

(** Every ping exits with code 0 after [ms] milliseconds and prints [output]. *)
Definition all_up (ms : N) (output : str) : Env :=
  constant {| took := ms;
              ending_of := Exits {| returncode := 0; stdout := output |} |}.

(** Ping outputs: the reply line of Windows, the output of Windows for a
    host whose name holds the word "time", the reply line of Linux, and
    reply lines whose time has no unit or is zero. *)
Definition windows_reply : str :=
  py "Reply from 10.0.0.1: bytes=32 time=12ms TTL=64".
Definition named_reply : str :=
  py "Pinging time.google.com [216.239.35.0] with 32 bytes of data:" ++ [10]
  ++ py "Reply from 216.239.35.0: bytes=32 time=12.5ms TTL=64".
Definition linux_reply : str :=
  py "64 bytes from 10.0.0.1: icmp_seq=1 ttl=64 time=12.3 ms".
Definition unitless_reply : str :=
  py "64 bytes from 10.0.0.1: icmp_seq=1 ttl=64 time=12".
Definition zero_reply : str :=
  py "Reply from 10.0.0.1: bytes=32 time=0ms TTL=64".

(** Ctrl+C arrives half a second into the first sleep. *)
Definition impatient : Env :=
  {| platform_system := py "Windows";
     child := fun _ _ =>
       {| took := 30;
          ending_of := Exits {| returncode := 0; stdout := windows_reply |} |};
     interrupt := fun _ => Some 500%N;
     open_error := fun _ _ => None;
     strftime := str_of_int |}.

(** Only the second anchor of the connectivity check answers. *)
Definition only_second_anchor : Env :=
  {| platform_system := py "Linux";
     child := fun _ command =>
       if str_eqb (nth 3 command []) (py "1.1.1.1")
       then {| took := 20;
               ending_of := Exits {| returncode := 0; stdout := linux_reply |} |}
       else {| took := 3000;
               ending_of := Exits {| returncode := 1; stdout := [] |} |};
     interrupt := fun _ => None;
     open_error := fun _ _ => None;
     strftime := str_of_int |}.

Definition host1 : str := py "10.0.0.1".
Definition host2 : str := py "10.0.0.2".
Definition host3 : str := py "10.0.0.3".

End Worlds.
Import Worlds.

(* ===================================================================== *)
(** * The menu *)
(* ===================================================================== *)

Module Builtins.

(** [c.isspace()]: the Unicode white space, which [str.strip()] removes. *)
Definition isspace (c : char) : bool :=
  ((9 <=? c) && (c <=? 13)) || ((28 <=? c) && (c <=? 32))
  || (c =? 0x85) || (c =? 0xa0) || (c =? 0x1680)
  || ((0x2000 <=? c) && (c <=? 0x200a))
  || (c =? 0x2028) || (c =? 0x2029) || (c =? 0x202f) || (c =? 0x205f)
  || (c =? 0x3000).

Fixpoint lstrip (s : str) : str :=
  match s with
  | c :: s' => if isspace c then lstrip s' else s
  | [] => []
  end.

Definition rstrip (s : str) : str := rev (lstrip (rev s)).

(** [s.strip()]. *)
Definition strip (s : str) : str := rstrip (lstrip s).

(** [x or y] on strings: the empty string is false. *)
Definition or_ (x y : str) : str :=
  match x with
  | [] => y
  | _ :: _ => x
  end.

(** [int(s)] reads its text in two steps.  First every character above
    ASCII becomes a blank if it is white space, its ASCII digit if it is a
    decimal digit, and ['?'] otherwise. *)
Definition to_ascii (c : char) : char :=
  if c <=? 127 then c
  else if isspace c then 32
  else match decimal_value c with
       | Some d => 48 + d
       | None => 63
       end.

(** Then the ASCII text is read: blanks (of ASCII: tab to carriage return,
    and the space), a sign, digits with single underscores between them,
    blanks, and nothing more. *)
Definition ascii_space (c : char) : bool := ((9 <=? c) && (c <=? 13)) || (c =? 32).

Fixpoint skip_spaces (s : str) : str :=
  match s with
  | c :: s' => if ascii_space c then skip_spaces s' else s
  | [] => []
  end.

(** The digits and underscores: the value, the number of digits and what
    follows them; [None] for two underscores in a row or one at the end. *)
Fixpoint scan_digits (prev : char) (acc : Z) (count : Z) (s : str)
    : option (Z * Z * str) :=
  match s with
  | c :: s' =>
      if (48 <=? c) && (c <=? 57) then scan_digits c (10 * acc + (c - 48)) (count + 1) s'
      else if c =? 95 then
        if prev =? 95 then None else scan_digits c acc count s'
      else if prev =? 95 then None else Some (acc, count, s)
  | [] => if prev =? 95 then None else Some (acc, count, [])
  end.

(** [int(s)] in base 10; [None] is its [ValueError].  A text of more than
    4300 digits is refused (the default limit of the interpreter). *)
Definition int_of_str (s : str) : option Z :=
  let t := skip_spaces (map to_ascii s) in
  let '(sign, t) :=
    match t with
    | 43 :: r => (1, r)
    | 45 :: r => (-1, r)
    | _ => (1, t)
    end in
  match t with
  | 95 :: _ => None
  | _ =>
      match scan_digits 0 0 0 t with
      | Some (n, count, rest) =>
          if count =? 0 then None
          else if 4300 <? count then None
          else match skip_spaces rest with
               | [] => Some (sign * n)
               | _ :: _ => None
               end
      | None => None
      end
  end.

End Builtins.
Import Builtins.

Module Menu.

(** What [input()] gives: the line typed, without its line break, or an
    exception ([EOFError] at the end of the input, [KeyboardInterrupt] on
    Ctrl+C), after the time the user took. *)
Inductive answer : Type :=
| Typed (line : str)
| Broken (e : exn).

Record keystroke : Type := { waited : N; given : answer }.

(** The terminal answers every [input()]; as for the environment, an
    answer may depend on all that happened before. *)
Record Terminal : Type := { keyboard : World -> keystroke }.

(** [while True: body], where the body may [break]: it returns [true]
    when it does.  The model runs at most [fuel] turns. *)
Fixpoint while_true_break (fuel : nat) (body : M bool) : M unit :=
  match fuel with
  | O => fun w => (Running, w)
  | S fuel' =>
      stop <- body ;;
      if stop then ret tt else while_true_break fuel' body
  end.

(** [int(text)], raising [ValueError] where [int()] does.  The text of
    the exception is cut short (it would quote the literal); [main] never
    reads it. *)
Definition int_ (text : str) : M Z :=
  match int_of_str text with
  | Some n => ret n
  | None =>
      raise {| class_of := ValueError;
               message := py "invalid literal for int() with base 10" |}
  end.

Definition default_hosts : list str :=
  [py "8.8.8.8"; py "1.1.1.1"; py "google.com"; py "github.com";
   py "192.168.1.1"].

Section Script.

Variable env : Env.
Variable term : Terminal.

(** [input(prompt)]: the prompt is written to the console (recorded as
    printed text, though no line break follows it) and the call waits for
    the line. *)
Definition input_ (prompt : str) : M str :=
  fun w =>
    let k := keyboard term w in
    let w' := advance (Z.of_N (waited k)) (emit (Printed prompt) w) in
    match given k with
    | Typed line => (Return line, w')
    | Broken e => (Raise e, w')
    end.

(** One turn of the loop of [main], lines 173-198; [true] is [break].
    [rounds] bounds the turns of the loops of [monitor_hosts]. *)
Definition menu_turn (rounds : nat) : M bool :=
  try_except
    (line <- input_ ([10] ++ py "Select option (1-3): ") ;;
     let choice := strip line in
     if str_eqb choice (py "1") then
       single_check env default_hosts ;;
       ret false
     else if str_eqb choice (py "2") then
       try_except
         (typed <- input_ (py "Enter check interval in seconds (default 60): ") ;;
          interval <- int_ (or_ typed (py "60")) ;;
          monitor_hosts env rounds default_hosts interval true)
         [ (ValueError, fun _ =>
              print (py "Invalid interval. Using default 60 seconds.") ;;
              monitor_hosts env rounds default_hosts 60 true) ] ;;
       ret false
     else if str_eqb choice (py "3") then
       print (py "Exiting...") ;;
       ret true
     else
       print (py "Invalid option. Please select 1-3.") ;;
       ret false)
    [ (KeyboardInterrupt, fun _ =>
         print ([10] ++ py "Exiting...") ;;
         ret true);
      (Exception, fun e =>
         print (py "Error: " ++ message e) ;;
         ret false) ].

(** [main()], lines 153-198; [turns] bounds the turns of the menu. *)
Definition main (turns rounds : nat) : M unit :=
  print (py "Network Monitoring Script") ;;
  print (times (py "=") 30) ;;
  print (py "1. Single check") ;;
  print (py "2. Continuous monitoring") ;;
  print (py "3. Exit") ;;
  while_true_break turns (menu_turn rounds).

End Script.

End Menu.
Import Menu.

(* ===================================================================== *)
(** * Further observations *)
(* ===================================================================== *)

Module Conduct.

Definition is_spawn (ev : event) : Prop :=
  match ev with Spawn _ _ _ => True | _ => False end.

(** The entries appended to files, in order. *)
Definition appended (tr : list event) : list (str * str) :=
  flat_map (fun ev => match ev with Appended f x => [(f, x)] | _ => [] end) tr.

(** The entry [log_result] writes for a message at clock reading [t]. *)
Definition log_entry (env : Env) (t : Z) (message_ : str) : str :=
  py "[" ++ strftime env t ++ py "] " ++ message_ ++ [10].

(** A message is in the log, stamped with some reading of the clock. *)
Definition logged (env : Env) (msg : str) (entry : str * str) : Prop :=
  exists t, entry = (default_log_file, log_entry env t msg).

(** Writing the log fails, if it does, with an exception of class
    [Exception]. *)
Definition log_safe (env : Env) : Prop :=
  forall w file e, open_error env w file = Some e -> isinstance e Exception = true.

(** Writing the log never fails. *)
Definition writable (env : Env) : Prop :=
  forall w file, open_error env w file = None.


(** A function comes to its end from every world: it neither raises nor
    is still running. *)
Definition finishes {A} (m : M A) : Prop :=
  forall w, exists a w', m w = (Return a, w').

(** A function runs at most [n] commands. *)
Definition spawns_at_most {A} (n : nat) (m : M A) : Prop :=
  forall w,
    (length (commands (trace (snd (m w)))) <= length (commands (trace w)) + n)%nat.

(** The text [monitor_hosts] prints when it is stopped. *)
Definition stopped_by_user : str := [10; 10] ++ py "Monitoring stopped by user.".

(** The world after the four lines [monitor_hosts] prints first. *)
Definition after_start (hosts : list str) (interval : Z) (w : World) : World :=
  emit (Printed (py "Press Ctrl+C to stop monitoring" ++ [10]))
    (emit (Printed (py "Check interval: " ++ str_of_int interval ++ py " seconds"))
       (emit (Printed (py "Monitoring hosts: " ++ join (py ", ") hosts))
          (emit (Printed (py "Starting Network Monitor...")) w))).

(** The world at the sleep of the first round of [monitor_hosts]. *)
Definition at_first_sleep (env : Env) (hosts : list str) (interval : Z)
    (log_to_file : bool) (w : World) : World :=
  emit (Printed ([10] ++ py "Next check in " ++ str_of_int interval
                 ++ py " seconds..."))
    (snd (monitor_checks env hosts log_to_file (after_start hosts interval w))).

(** The bound on the interval under which the properties of the sleep
    are stated.  Above it [time.sleep] raises [OverflowError], and close to
    it the system may refuse the length ([OSError]); the model of
    [time_sleep] has neither failure. *)
Definition longest_sleep : Z := 9223372036.

(** The world after the five lines [main] prints first. *)
Definition after_banner (w : World) : World :=
  emit (Printed (py "3. Exit"))
    (emit (Printed (py "2. Continuous monitoring"))
       (emit (Printed (py "1. Single check"))
          (emit (Printed (times (py "=") 30))
             (emit (Printed (py "Network Monitoring Script")) w)))).

Definition menu_prompt : str := [10] ++ py "Select option (1-3): ".
Definition interval_prompt : str :=
  py "Enter check interval in seconds (default 60): ".

(** The world after a prompt was answered. *)
Definition after_input (term : Terminal) (prompt : str) (w : World) : World :=
  advance (Z.of_N (waited (keyboard term w))) (emit (Printed prompt) w).

(** The clauses of the [try] of [main]'s loop. *)
Definition menu_clauses : list (exn_class * (exn -> M bool)) :=
  [ (KeyboardInterrupt, fun _ => print ([10] ++ py "Exiting...") ;; ret true);
    (Exception, fun e => print (py "Error: " ++ message e) ;; ret false) ].

(** The [try] of option 2 of the menu, lines 180-185. *)
Definition ask_interval (env : Env) (term : Terminal) (rounds : nat) : M unit :=
  try_except
    (typed <- input_ term interval_prompt ;;
     interval <- int_ (or_ typed (py "60")) ;;
     monitor_hosts env rounds default_hosts interval true)
    [ (ValueError, fun _ =>
         print (py "Invalid interval. Using default 60 seconds.") ;;
         monitor_hosts env rounds default_hosts 60 true) ].

(** The warning of the fallback to the default interval. *)
Definition invalid_interval : str :=
  py "Invalid interval. Using default 60 seconds.".

End Conduct.
Import Conduct.

Module Sessions.

Definition ctrl_c : exn := {| class_of := KeyboardInterrupt; message := [] |}.

(** The log file cannot be opened; pings answer. *)
Definition read_only : Env :=
  {| platform_system := py "Linux";
     child := fun _ _ =>
       {| took := 12;
          ending_of := Exits {| returncode := 0; stdout := windows_reply |} |};
     interrupt := fun _ => None;
     open_error := fun _ _ =>
       Some {| class_of := PermissionError; message := py "Permission denied" |};
     strftime := str_of_int |}.

(** The number of prompts written so far. *)
Definition prompts (tr : list event) : nat :=
  length (filter (fun t => str_eqb t menu_prompt || str_eqb t interval_prompt)
            (printed tr)).

(** A terminal at which the given lines are typed, one per prompt, each
    after a second; after the last the input is at its end ([EOFError],
    which the classes of the model hold as a plain [Exception]). *)
Definition typing (lines : list str) : Terminal :=
  {| keyboard := fun w =>
       {| waited := 1000;
          given :=
            match nth_error lines (prompts (trace w)) with
            | Some line => Typed line
            | None => Broken {| class_of := Exception;
                                message := py "EOF when reading a line" |}
            end |} |}.

(** Pings answer; Ctrl+C arrives three seconds into every sleep. *)
Definition stopped_early : Env :=
  {| platform_system := py "Linux";
     child := fun _ _ =>
       {| took := 12;
          ending_of := Exits {| returncode := 0; stdout := windows_reply |} |};
     interrupt := fun _ => Some 3000%N;
     open_error := fun _ _ => None;
     strftime := str_of_int |}.

(** A terminal at which Ctrl+C is pressed at once. *)
Definition hasty : Terminal :=
  {| keyboard := fun _ => {| waited := 0; given := Broken ctrl_c |} |}.

End Sessions.
Import Sessions.

(* ===================================================================== *)
(** * Properties *)
(* ===================================================================== *)

Import Re.

#[local] Arguments isinstance : simpl never.

(** ** Text *)

Lemma str_eqb_eq a b : str_eqb a b = true <-> a = b.
Proof.
  unfold str_eqb. destruct (list_eq_dec Z.eq_dec a b); intuition congruence.
Qed.

Lemma startswith_app p rest : startswith p (p ++ rest) = true.
Proof.
  induction p; cbn -[Z.eqb]; [reflexivity|]. rewrite Z.eqb_refl. exact IHp.
Qed.

Lemma contains_app_r p a b : contains p b = true -> contains p (a ++ b) = true.
Proof.
  intros H. induction a as [|c a IH]; [exact H|].
  cbn [app contains]. rewrite IH. apply orb_true_r.
Qed.

Lemma contains_here p rest : contains p (p ++ rest) = true.
Proof.
  destruct p; cbn -[Z.eqb]; [destruct rest; reflexivity|].
  rewrite Z.eqb_refl, startswith_app. reflexivity.
Qed.

(** The head of a match, ["time="] or ["time<"], cannot begin inside a
    text that does not hold it and end in the ["time="] that follows the
    text. *)
Lemma head_not_astride c pre rest :
  c <> 116 ->
  contains (py "time" ++ [c]) pre = false ->
  pre <> [] ->
  startswith (py "time" ++ [c]) (pre ++ py "time=" ++ rest) = false.
Proof.
  intros Hc H Hne.
  destruct pre as [|a1 [|a2 [|a3 [|a4 [|a5 pre]]]]]; [congruence|..]; clear Hne.
  - cbn -[Z.eqb]. destruct (116 =? a1); reflexivity.
  - cbn -[Z.eqb]. destruct (116 =? a1); [|reflexivity].
    destruct (105 =? a2); reflexivity.
  - cbn -[Z.eqb]. destruct (116 =? a1); [|reflexivity].
    destruct (105 =? a2); [|reflexivity].
    destruct (109 =? a3); reflexivity.
  - cbn -[Z.eqb]. destruct (116 =? a1); [|reflexivity].
    destruct (105 =? a2); [|reflexivity].
    destruct (109 =? a3); [|reflexivity].
    destruct (101 =? a4); [|reflexivity].
    apply Z.eqb_neq in Hc. rewrite Hc. reflexivity.
  - cbn -[Z.eqb] in H |- *. apply orb_false_iff in H. apply H.
Qed.

Lemma contains_tail p c s : contains p (c :: s) = false -> contains p s = false.
Proof. cbn [contains]. intros H. apply orb_false_iff in H. apply H. Qed.

(** ** The matcher on the script's pattern *)

(** A match of the pattern begins with ["time="] or ["time<"]. *)
Lemma match_needs_head s :
  startswith (py "time=") s = false ->
  startswith (py "time<") s = false ->
  match_ time_pattern s = None.
Proof.
  unfold match_, time_pattern. cbn -[Z.eqb].
  destruct s as [|a1 s]; [reflexivity|].
  rewrite (Z.eqb_sym 116 a1). destruct (a1 =? 116); [|reflexivity].
  destruct s as [|a2 s]; [reflexivity|].
  rewrite (Z.eqb_sym 105 a2). destruct (a2 =? 105); [|reflexivity].
  destruct s as [|a3 s]; [reflexivity|].
  rewrite (Z.eqb_sym 109 a3). destruct (a3 =? 109); [|reflexivity].
  destruct s as [|a4 s]; [reflexivity|].
  rewrite (Z.eqb_sym 101 a4). destruct (a4 =? 101); [|reflexivity].
  destruct s as [|a5 s]; [reflexivity|].
  rewrite (Z.eqb_sym 61 a5), (Z.eqb_sym 60 a5).
  destruct (a5 =? 61); [discriminate|]. destruct (a5 =? 60); [discriminate|].
  reflexivity.
Qed.

Lemma search_here r s m : match_ r s = Some m -> search r s = Some m.
Proof. intros H. destruct s; cbn [search]; rewrite H; reflexivity. Qed.

(** [re.search] passes over a text that holds no head of a match. *)
Lemma search_skips pre rest :
  contains (py "time=") pre = false ->
  contains (py "time<") pre = false ->
  search time_pattern (pre ++ py "time=" ++ rest)
  = search time_pattern (py "time=" ++ rest).
Proof.
  induction pre as [|c pre IH]; intros He Hl; [reflexivity|].
  change ((c :: pre) ++ py "time=" ++ rest) with (c :: (pre ++ py "time=" ++ rest)).
  cbn [search].
  rewrite match_needs_head.
  - apply IH; eapply contains_tail; eauto.
  - apply (head_not_astride 61 (c :: pre)); [lia | exact He | discriminate].
  - apply (head_not_astride 60 (c :: pre)); [lia | exact Hl | discriminate].
Qed.

Lemma backtrack_class_cons {R} p x s g (k : str -> option str -> option R) :
  backtrack (Class p) (x :: s) g k = if p x then k s g else None.
Proof. reflexivity. Qed.

Lemma iterate_stops {R} n rest g (k : str -> option str -> option R) :
  not_digit_first rest ->
  iterate (backtrack (Class isdecimal)) n rest g k = None.
Proof.
  intros Hr. destruct n, rest as [|c rest]; cbn [iterate]; try reflexivity;
    rewrite backtrack_class_cons; cbn in Hr; rewrite Hr; reflexivity.
Qed.

Lemma iterate_digits {R} (ds : str) :
  forall n rest g (k : str -> option str -> option R) m,
  Forall (fun c => isdecimal c = true) ds ->
  ds <> [] ->
  not_digit_first rest ->
  (length ds <= S n)%nat ->
  k rest g = Some m ->
  iterate (backtrack (Class isdecimal)) n (ds ++ rest) g k = Some m.
Proof.
  induction ds as [|d ds IH]; intros n rest g k m Hd Hne Hr Hn Hk; [congruence|].
  inversion Hd as [|? ? Hd1 Hd2]; subst.
  change ((d :: ds) ++ rest) with (d :: (ds ++ rest)).
  destruct n as [|n]; cbn [iterate]; rewrite backtrack_class_cons, Hd1.
  - destruct ds; [exact Hk | cbn in Hn; lia].
  - replace (length (ds ++ rest) <? length (d :: ds ++ rest))%nat with true
      by (symmetry; apply Nat.ltb_lt; cbn; lia).
    destruct ds as [|d' ds].
    + cbn [app]. rewrite iterate_stops; auto.
    + rewrite (IH n rest g k m); auto; [discriminate | cbn in *; lia].
Qed.

Lemma many1_digits {R} ds rest g (k : str -> option str -> option R) m :
  Forall (fun c => isdecimal c = true) ds ->
  ds <> [] ->
  not_digit_first rest ->
  k rest g = Some m ->
  backtrack (Many1 (Class isdecimal)) (ds ++ rest) g k = Some m.
Proof.
  intros. cbn [backtrack]. apply iterate_digits; auto.
  rewrite length_app. lia.
Qed.

Lemma backtrack_cat {R} r1 r2 s g (k : str -> option str -> option R) :
  backtrack (Cat r1 r2) s g k
  = backtrack r1 s g (fun s1 g1 => backtrack r2 s1 g1 k).
Proof. reflexivity. Qed.

Lemma backtrack_maybe {R} r s g (k : str -> option str -> option R) :
  backtrack (Maybe r) s g k
  = match backtrack r s g k with Some m => Some m | None => k s g end.
Proof. reflexivity. Qed.

Lemma backtrack_group {R} r s g (k : str -> option str -> option R) :
  backtrack (Group r) s g k
  = backtrack r s g (fun s1 _ => k s1 (Some (firstn (length s - length s1) s))).
Proof. reflexivity. Qed.

Lemma backtrack_lit_cons {R} c x s g (k : str -> option str -> option R) :
  backtrack (Lit c) (x :: s) g k = if x =? c then k s g else None.
Proof. reflexivity. Qed.

Lemma firstn_consumed (a b : str) :
  firstn (length (a ++ b) - length b) (a ++ b) = a.
Proof.
  rewrite length_app. replace (length a + length b - length b)%nat with (length a) by lia.
  rewrite firstn_app, Nat.sub_diag, firstn_all. cbn. apply app_nil_r.
Qed.

(** The unit after the number: [m?s]. *)
Lemma unit_matches unit_ post g :
  unit_ = py "ms" \/ unit_ = py "s" ->
  backtrack (Cat (Maybe (Lit 109)) (Lit 115)) (unit_ ++ post) g
    (fun _ g' => Some {| group1 := g' |})
  = Some {| group1 := g |}.
Proof. intros [->| ->]; reflexivity. Qed.

Lemma unit_not_digit unit_ post :
  unit_ = py "ms" \/ unit_ = py "s" -> not_digit_first (unit_ ++ post).
Proof. intros [->| ->]; reflexivity. Qed.

Lemma unit_not_point {R} unit_ post g (k : str -> option str -> option R) :
  unit_ = py "ms" \/ unit_ = py "s" ->
  backtrack (Cat (Lit 46) (Many1 (Class isdecimal))) (unit_ ++ post) g k = None.
Proof. intros [->| ->]; reflexivity. Qed.

Lemma match_time_number num unit_ post :
  number_text num ->
  unit_ = py "ms" \/ unit_ = py "s" ->
  match_ time_pattern (py "time=" ++ num ++ unit_ ++ post)
  = Some {| group1 := Some num |}.
Proof.
  intros Hn Hu. unfold match_.
  change (backtrack time_pattern (py "time=" ++ num ++ unit_ ++ post) None
            (fun _ g => Some {| group1 := g |}))
    with (backtrack (Cat (Group number) (Cat (Maybe (Lit 109)) (Lit 115)))
            (num ++ unit_ ++ post) None (fun _ g => Some {| group1 := g |})).
  rewrite backtrack_cat, backtrack_group. unfold number. rewrite backtrack_cat.
  destruct Hn as [[Hne Hd] | (ip & fp & [Hine Hid] & [Hfne Hfd] & ->)].
  - apply many1_digits; auto using unit_not_digit.
    rewrite backtrack_maybe, unit_not_point by exact Hu.
    rewrite firstn_consumed. apply unit_matches, Hu.
  - replace ((ip ++ [46] ++ fp) ++ unit_ ++ post)
      with (ip ++ 46 :: fp ++ unit_ ++ post)
      by (rewrite <- !app_assoc; reflexivity).
    apply many1_digits; auto; [reflexivity|].
    cbv beta. rewrite backtrack_maybe, backtrack_cat, backtrack_lit_cons.
    change (46 =? 46) with true. cbv iota.
    rewrite (many1_digits fp (unit_ ++ post) None _
               {| group1 := Some (ip ++ [46] ++ fp) |});
      auto using unit_not_digit.
    replace (ip ++ 46 :: fp ++ unit_ ++ post) with ((ip ++ [46] ++ fp) ++ unit_ ++ post)
      by (rewrite <- !app_assoc; reflexivity).
    rewrite firstn_consumed. apply unit_matches, Hu.
Qed.

(** ** Reading the number *)

Lemma decimal_not_point c : isdecimal c = true -> (c =? 46) = false.
Proof.
  destruct (c =? 46) eqn:E; [|reflexivity].
  apply Z.eqb_eq in E. subst c. discriminate.
Qed.

Lemma split_point_digits ds rest :
  Forall (fun c => isdecimal c = true) ds ->
  split_point (ds ++ rest) = (ds ++ fst (split_point rest), snd (split_point rest)).
Proof.
  induction 1 as [|c ds Hc _ IH]; [cbn [app]; destruct (split_point rest); reflexivity|].
  cbn [app split_point]. rewrite (decimal_not_point _ Hc), IH. reflexivity.
Qed.

Lemma digits_value_total ds : forall acc,
  Forall (fun c => isdecimal c = true) ds ->
  exists n, digits_value acc ds = Some n.
Proof.
  induction ds as [|c ds IH]; intros acc H; [eexists; reflexivity|].
  inversion H as [|? ? Hc Hd]; subst. cbn [digits_value].
  unfold isdecimal in Hc. destruct (decimal_value c); [|discriminate].
  apply IH, Hd.
Qed.

Lemma float_of_number num :
  number_text num -> exists x, float_of_str num = Some x.
Proof.
  unfold float_of_str.
  intros [[Hne Hd] | (ip & fp & [Hine Hid] & [Hfne Hfd] & ->)].
  - rewrite <- (app_nil_r num), split_point_digits by exact Hd.
    cbn [split_point fst snd]. rewrite !app_nil_r.
    destruct num as [|c num]; [congruence|].
    destruct (digits_value_total (c :: num) 0 Hd) as [n ->]. eauto.
  - rewrite split_point_digits by exact Hid.
    cbn [app split_point]. change (46 =? 46) with true. cbn [fst snd].
    rewrite app_nil_r.
    destruct (digits_value_total (ip ++ fp) 0) as [n Hv]; [apply Forall_app; auto|].
    destruct ip as [|c ip]; [congruence|]. cbn [app] in *. rewrite Hv. eauto.
Qed.

Lemma parsed_time_number pre num unit_ post :
  contains (py "time=") pre = false ->
  contains (py "time<") pre = false ->
  number_text num ->
  unit_ = py "ms" \/ unit_ = py "s" ->
  parsed_time (pre ++ py "time=" ++ num ++ unit_ ++ post) = float_of_str num.
Proof.
  intros He Hl Hn Hu. unfold parsed_time.
  rewrite contains_app_r by apply contains_here.
  rewrite search_skips by assumption.
  rewrite (search_here _ _ _ (match_time_number num unit_ post Hn Hu)).
  reflexivity.
Qed.

(** ** The calls of the script *)

Lemma isinstance_TimeoutExpired_Exception e :
  isinstance e TimeoutExpired = true -> isinstance e Exception = true.
Proof. unfold isinstance. destruct (class_of e); cbn; congruence. Qed.

Section CallFacts.
Variable env : Env.

Lemma ping_host_eq host w :
  ping_host env host w =
  (match cancelled (ping_response env w host) with
   | Some e => Raise e
   | None => Return (succeeds (ping_response env w host))
   end, after_ping env w host).
Proof.
  unfold ping_host, try_except, bind, subprocess_run, after_ping, ping_response,
    cancelled, succeeds, timed_out, ping_time, ping_command.
  change (1000 * 10) with 10000.
  set (r := child env w _).
  destruct (10000 <? Z.of_N (took r)) eqn:Ht; cbn.
  - reflexivity.
  - destruct (ending_of r) as [p|e]; cbn; [reflexivity|].
    destruct (isinstance e TimeoutExpired) eqn:H1; cbn.
    + rewrite (isinstance_TimeoutExpired_Exception _ H1). reflexivity.
    + destruct (isinstance e Exception); reflexivity.
Qed.

Lemma get_response_time_eq host w :
  get_response_time env host w =
  (match cancelled (ping_response env w host) with
   | Some e => Raise e
   | None => Return (latency (ping_response env w host))
   end, after_ping env w host).
Proof.
  unfold get_response_time, try_except, bind, subprocess_run, after_ping,
    ping_response, cancelled, latency, succeeds, timed_out, ping_time, ping_command.
  change (1000 * 10) with 10000.
  set (r := child env w _).
  destruct (10000 <? Z.of_N (took r)) eqn:Ht; cbv beta iota zeta.
  - reflexivity.
  - destruct (ending_of r) as [p|e]; cbv beta iota zeta.
    + unfold parsed_time, float_of_group, float_, negb, andb.
      destruct (returncode p =? 0); [|reflexivity].
      destruct (contains (py "time=") (stdout p)); [|reflexivity].
      destruct (search time_pattern (stdout p)) as [m|]; [|reflexivity].
      destruct (group1 m) as [t|]; [|reflexivity].
      destruct (float_of_str t); reflexivity.
    + unfold find_handler. destruct (isinstance e Exception); reflexivity.
Qed.
End CallFacts.

(** ** The monad *)

Lemma bind_Return {A B} (m : M A) (k : A -> M B) w a w1 :
  m w = (Return a, w1) -> bind m k w = k a w1.
Proof. unfold bind. intros ->. reflexivity. Qed.

Lemma bind_Raise {A B} (m : M A) (k : A -> M B) w e w1 :
  m w = (Raise e, w1) -> bind m k w = (Raise e, w1).
Proof. unfold bind. intros ->. reflexivity. Qed.

Lemma bind_inv {A B} (m : M A) (k : A -> M B) w b w' :
  bind m k w = (Return b, w') ->
  exists a w1, m w = (Return a, w1) /\ k a w1 = (Return b, w').
Proof.
  unfold bind. destruct (m w) as [[a|e|] w1]; intros H; try discriminate.
  exists a, w1. split; [reflexivity|exact H].
Qed.

(** ** Traces *)

Lemma commands_app tr1 tr2 : commands (tr1 ++ tr2) = commands tr1 ++ commands tr2.
Proof. apply flat_map_app. Qed.

Lemma printed_app tr1 tr2 : printed (tr1 ++ tr2) = printed tr1 ++ printed tr2.
Proof. apply flat_map_app. Qed.

Lemma sleeps_app tr1 tr2 : sleeps (tr1 ++ tr2) = sleeps tr1 ++ sleeps tr2.
Proof. apply flat_map_app. Qed.

Lemma spawn_time_app tr1 tr2 : spawn_time (tr1 ++ tr2) = spawn_time tr1 + spawn_time tr2.
Proof.
  induction tr1 as [|ev tr1 IH]; cbn; [reflexivity|].
  fold (spawn_time (tr1 ++ tr2)). fold (spawn_time tr1).
  destruct ev; lia.
Qed.

Lemma sleeps_quiet tr : Forall (fun ev => is_sleep ev = false) tr -> sleeps tr = [].
Proof.
  induction 1 as [|ev tr H _ IH]; [reflexivity|].
  destruct ev; cbn in *; try discriminate; exact IH.
Qed.

Lemma chained_app t0 tr1 t1 tr2 t2 :
  chained t0 tr1 t1 -> chained t1 tr2 t2 -> chained t0 (tr1 ++ tr2) t2.
Proof. induction 1; intros; cbn; try constructor; auto. Qed.

Lemma chained_mono t0 tr t1 : chained t0 tr t1 -> t0 <= t1.
Proof. induction 1; lia. Qed.

(** Without sleeps, the time that passes is the time of the commands. *)
Lemma chained_spawn_time t0 tr t1 :
  chained t0 tr t1 -> sleeps tr = [] -> t1 = t0 + spawn_time tr.
Proof.
  induction 1; cbn; intros Hs; try discriminate.
  - lia.
  - fold (spawn_time tr). specialize (IHchained Hs). lia.
  - fold (spawn_time tr). auto.
  - fold (spawn_time tr). auto.
Qed.

(** ** Footprints: every function only adds events, one after the other *)

Section Steps.

Variable P : event -> Prop.
Hypothesis P_spawn : forall c t t', P (Spawn c t t').
Hypothesis P_print : forall x, P (Printed x).
Hypothesis P_appended : forall f x, P (Appended f x).

Lemma steps_ret {A} (a : A) : steps P (ret a).
Proof. intros w. exists []. cbn. rewrite app_nil_r. repeat split; constructor. Qed.

Lemma steps_raise {A} e : steps P (@raise A e).
Proof. intros w. exists []. cbn. rewrite app_nil_r. repeat split; constructor. Qed.

Lemma steps_bind {A B} (m : M A) (k : A -> M B) :
  steps P m -> (forall a, steps P (k a)) -> steps P (bind m k).
Proof.
  intros Hm Hk w. unfold bind.
  destruct (Hm w) as (evs1 & T1 & C1 & F1).
  destruct (m w) as [[a|e|] w1]; cbn in *.
  - destruct (Hk a w1) as (evs2 & T2 & C2 & F2).
    exists (evs1 ++ evs2). rewrite T2, T1, app_assoc. repeat split.
    + eapply chained_app; eauto.
    + apply Forall_app; auto.
  - exists evs1; auto.
  - exists evs1; auto.
Qed.

Lemma steps_try_except {A} (m : M A) clauses :
  steps P m -> Forall (fun ch => forall e, steps P (snd ch e)) clauses ->
  steps P (try_except m clauses).
Proof.
  intros Hm Hc w. unfold try_except.
  destruct (Hm w) as (evs1 & T1 & C1 & F1).
  destruct (m w) as [[a|e|] w1]; cbn in *; try (exists evs1; auto; fail).
  destruct (find_handler clauses e) as [h|] eqn:Hf; [|exists evs1; auto].
  assert (Hh : steps P h).
  { clear -Hc Hf. induction Hc as [|[c h'] rest H _ IH]; cbn in Hf; [discriminate|].
    destruct (isinstance e c); [injection Hf as <-; apply H | auto]. }
  destruct (Hh w1) as (evs2 & T2 & C2 & F2).
  exists (evs1 ++ evs2). rewrite T2, T1, app_assoc. repeat split.
  - eapply chained_app; eauto.
  - apply Forall_app; auto.
Qed.

Lemma steps_for_each {A} (xs : list A) body :
  (forall x, steps P (body x)) -> steps P (for_each xs body).
Proof.
  intros Hb. induction xs; cbn; [apply steps_ret|].
  apply steps_bind; auto.
Qed.

Lemma steps_for_ {A R} (xs : list A) (body : A -> M (option R)) :
  (forall x, steps P (body x)) -> steps P (for_ xs body).
Proof.
  intros Hb. induction xs; cbn; [apply steps_ret|].
  apply steps_bind; auto. intros [v|]; [apply steps_ret|auto].
Qed.

Lemma steps_while_true fuel body :
  steps P body -> steps P (while_true fuel body).
Proof.
  intros Hb. induction fuel; cbn.
  - intros w. exists []. cbn. rewrite app_nil_r. repeat split; constructor.
  - apply steps_bind; auto.
Qed.

Lemma steps_when c body : steps P body -> steps P (when c body).
Proof. destruct c; cbn; auto using steps_ret. Qed.

Lemma steps_print x : steps P (print x).
Proof.
  intros w. exists [Printed x]. cbn. repeat split; repeat constructor; auto.
Qed.

Lemma steps_now_strftime env : steps P (now_strftime env).
Proof. intros w. exists []. cbn. rewrite app_nil_r. repeat split; constructor. Qed.

Lemma steps_subprocess_run env command seconds :
  0 <= seconds -> steps P (subprocess_run env command seconds).
Proof.
  intros Hs w. unfold subprocess_run.
  set (r := child env w command).
  set (used := Z.min _ _).
  exists [Spawn command (clock w) (clock w + used)].
  assert (0 <= used) by (subst used; lia).
  destruct (1000 * seconds <? Z.of_N (took r)); [|destruct (ending_of r)];
    cbn; (repeat split; [repeat constructor; lia | repeat constructor; auto]).
Qed.

Lemma steps_append_to env file entry : steps P (append_to env file entry).
Proof.
  intros w. unfold append_to. destruct (open_error env w file).
  - exists []. cbn. rewrite app_nil_r. repeat split; constructor.
  - exists [Appended file entry]. cbn. repeat split; repeat constructor; auto.
Qed.

Lemma steps_ping_host env host : steps P (ping_host env host).
Proof.
  unfold ping_host. apply steps_try_except.
  - apply steps_bind; [apply steps_subprocess_run; lia | intros; apply steps_ret].
  - repeat constructor; intros; apply steps_ret.
Qed.

Lemma steps_get_response_time env host : steps P (get_response_time env host).
Proof.
  unfold get_response_time. apply steps_try_except.
  - apply steps_bind; [apply steps_subprocess_run; lia |].
    intros p. destruct (returncode p =? 0); [|apply steps_ret].
    destruct (contains _ _); [|apply steps_ret].
    destruct (search _ _) as [m|]; [|apply steps_ret].
    apply steps_bind; [|intros; apply steps_ret].
    unfold float_of_group, float_. destruct (group1 m) as [t|]; [|apply steps_raise].
    destruct (float_of_str t); [apply steps_ret|apply steps_raise].
  - repeat constructor; intros; apply steps_ret.
Qed.

Lemma steps_check_internet_connection env : steps P (check_internet_connection env).
Proof.
  unfold check_internet_connection. apply steps_bind.
  - apply steps_for_. intros host. apply steps_bind; [apply steps_ping_host|].
    intros []; apply steps_ret.
  - intros [v|]; apply steps_ret.
Qed.

Lemma steps_log_result env msg file : steps P (log_result env msg file).
Proof.
  unfold log_result. apply steps_bind; [apply steps_now_strftime|]. intros ts.
  apply steps_try_except; [apply steps_append_to|].
  repeat constructor; intros; apply steps_print.
Qed.

Lemma steps_single_host env host : steps P (single_host env host).
Proof.
  unfold single_host. apply steps_bind; [apply steps_ping_host|].
  intros []; [|apply steps_print].
  apply steps_bind; [apply steps_get_response_time|].
  intros t. destruct (truth t); apply steps_print.
Qed.

Lemma steps_monitor_host env lg host : steps P (monitor_host env lg host).
Proof.
  unfold monitor_host. apply steps_bind; [apply steps_ping_host|].
  intros [].
  - apply steps_bind; [apply steps_get_response_time|]. intros t.
    apply steps_bind; [apply steps_print|]. intros _.
    apply steps_when, steps_log_result.
  - apply steps_bind; [apply steps_print|]. intros _.
    apply steps_when, steps_log_result.
Qed.

Lemma steps_single_check env hosts : steps P (single_check env hosts).
Proof.
  unfold single_check.
  apply steps_bind; [apply steps_now_strftime|]. intros ts.
  apply steps_bind; [apply steps_print|]. intros _.
  apply steps_bind; [apply steps_print|]. intros _.
  apply steps_bind; [apply steps_check_internet_connection|]. intros online.
  apply steps_bind; [destruct online; apply steps_print|]. intros _.
  apply steps_bind; [apply steps_print|]. intros _.
  apply steps_for_each. intros; apply steps_single_host.
Qed.

Lemma steps_monitor_checks env hosts lg : steps P (monitor_checks env hosts lg).
Proof.
  unfold monitor_checks.
  apply steps_bind; [apply steps_now_strftime|]. intros ts.
  apply steps_bind; [apply steps_print|]. intros _.
  apply steps_bind; [apply steps_check_internet_connection|]. intros online.
  apply steps_bind.
  - destruct online; (apply steps_bind; [apply steps_print|]; intros _;
      apply steps_when, steps_log_result).
  - intros _. apply steps_for_each. intros; apply steps_monitor_host.
Qed.

End Steps.

Lemma quiet_single_check env hosts : steps no_sleep (single_check env hosts).
Proof. apply steps_single_check; intros; reflexivity. Qed.

(** ** One host, one check *)

Lemma fails_not_succeeds r :
  fails r = true -> cancelled r = None /\ succeeds r = false.
Proof.
  unfold fails, cancelled, succeeds.
  destruct (timed_out r); cbn; [auto|].
  destruct (ending_of r) as [p|e]; cbn.
  - destruct (returncode p =? 0); cbn; intros; try discriminate; auto.
  - intros ->. auto.
Qed.

(** A response succeeds, fails, or is cancelled, and only one of the three. *)
Lemma response_cases r :
  (succeeds r = true /\ fails r = false /\ cancelled r = None)
  \/ (succeeds r = false /\ fails r = true /\ cancelled r = None)
  \/ (succeeds r = false /\ fails r = false /\ exists e, cancelled r = Some e).
Proof.
  unfold fails, cancelled, succeeds.
  destruct (timed_out r); cbn; [auto|].
  destruct (ending_of r) as [p|e]; cbn.
  - destruct (returncode p =? 0); cbn; auto.
  - destruct (isinstance e Exception); eauto 6.
Qed.

Section Hosts.
Variable env : Env.

Lemma single_host_eq host w :
  single_host env host w =
  let r1 := ping_response env w host in
  let w1 := after_ping env w host in
  match cancelled r1 with
  | Some e => (Raise e, w1)
  | None =>
      if succeeds r1 then
        let r2 := ping_response env w1 host in
        let w2 := after_ping env w1 host in
        match cancelled r2 with
        | Some e => (Raise e, w2)
        | None =>
            (Return tt,
             emit (Printed (single_line host (Reachable (latency r2)))) w2)
        end
      else (Return tt, emit (Printed (single_line host Unreachable)) w1)
  end.
Proof.
  unfold single_host, bind. rewrite ping_host_eq. cbv zeta.
  destruct (cancelled (ping_response env w host)); [reflexivity|].
  destruct (succeeds (ping_response env w host)); [|reflexivity].
  rewrite get_response_time_eq.
  destruct (cancelled (ping_response env (after_ping env w host) host)); [reflexivity|].
  unfold single_line. destruct (truth _); reflexivity.
Qed.

Lemma monitor_host_eq lg host w :
  monitor_host env lg host w =
  let r1 := ping_response env w host in
  let w1 := after_ping env w host in
  match cancelled r1 with
  | Some e => (Raise e, w1)
  | None =>
      if succeeds r1 then
        let r2 := ping_response env w1 host in
        let w2 := after_ping env w1 host in
        match cancelled r2 with
        | Some e => (Raise e, w2)
        | None =>
            let line := monitor_line host (Reachable (latency r2)) in
            when lg (log_result env line default_log_file) (emit (Printed line) w2)
        end
      else
        let line := monitor_line host Unreachable in
        when lg (log_result env line default_log_file) (emit (Printed line) w1)
  end.
Proof.
  unfold monitor_host, bind. rewrite ping_host_eq. cbv zeta.
  destruct (cancelled (ping_response env w host)); [reflexivity|].
  destruct (succeeds (ping_response env w host)); [|reflexivity].
  rewrite get_response_time_eq.
  destruct (cancelled (ping_response env (after_ping env w host) host)); [reflexivity|].
  unfold monitor_line, print. reflexivity.
Qed.

End Hosts.

Lemma trace_after_ping env w host :
  trace (after_ping env w host) =
  trace w ++ [Spawn (ping_command env host) (clock w)
                (clock w + ping_time (ping_response env w host))].
Proof. reflexivity. Qed.

Lemma clock_after_ping env w host :
  clock (after_ping env w host) = clock w + ping_time (ping_response env w host).
Proof. reflexivity. Qed.

Section Probed.
Variable env : Env.

Lemma probed_prefix anchors :
  exists skipped, anchors = probed env anchors ++ skipped.
Proof.
  induction anchors as [|a rest [sk IH]]; cbn; [exists []; reflexivity|].
  destruct (anchor_reachable env a); [exists rest; reflexivity|].
  exists sk. cbn. congruence.
Qed.

Lemma probed_all_but_last anchors a :
  In a (removelast (probed env anchors)) -> anchor_reachable env a = false.
Proof.
  induction anchors as [|b rest IH]; cbn; [tauto|].
  destruct (anchor_reachable env b) eqn:Hb; cbn; [tauto|].
  destruct (probed env rest) eqn:Hp; cbn in *; [tauto|].
  intros [<-|H]; auto.
Qed.

Lemma probed_online anchors :
  existsb (anchor_reachable env) anchors = true ->
  exists before a, probed env anchors = before ++ [a]
                   /\ anchor_reachable env a = true.
Proof.
  induction anchors as [|b rest IH]; cbn; [discriminate|].
  destruct (anchor_reachable env b) eqn:Hb; cbn.
  - intros _. exists [], b. auto.
  - intros H. destruct (IH H) as (before & a & -> & Ha).
    exists (b :: before), a. auto.
Qed.

Lemma probed_offline anchors :
  existsb (anchor_reachable env) anchors = false -> probed env anchors = anchors.
Proof.
  induction anchors as [|b rest IH]; cbn; [reflexivity|].
  destruct (anchor_reachable env b); cbn; [discriminate|].
  intros H. rewrite IH; auto.
Qed.

Lemma check_internet_connection_eq w :
  uninterrupted env ->
  exists w' evs,
    check_internet_connection env w =
      (Return (existsb (anchor_reachable env) (anchor_worlds env w)), w')
    /\ trace w' = trace w ++ evs
    /\ commands evs =
         map (fun a => ping_command env (fst a)) (probed env (anchor_worlds env w))
    /\ printed evs = [].
Proof.
  intros U.
  unfold check_internet_connection, test_hosts, for_, bind, anchor_worlds, ret.
  cbv zeta. unfold probed, existsb, anchor_reachable, fst, snd.
  rewrite ping_host_eq. unfold ping_response at 1. rewrite U.
  set (w1 := after_ping env w (py "8.8.8.8")).
  destruct (succeeds (ping_response env w (py "8.8.8.8"))).
  { eexists _, [_]. repeat split; reflexivity. }
  cbv beta iota. rewrite ping_host_eq. unfold ping_response at 1. rewrite U.
  set (w2 := after_ping env w1 (py "1.1.1.1")).
  destruct (succeeds (ping_response env w1 (py "1.1.1.1"))).
  { eexists _, [_; _]. split; [reflexivity|].
    split; [subst w2 w1; rewrite !trace_after_ping, <- app_assoc; reflexivity
           | split; reflexivity]. }
  cbv beta iota. rewrite ping_host_eq. unfold ping_response at 1. rewrite U.
  destruct (succeeds (ping_response env w2 (py "google.com")));
    (eexists _, [_; _; _]; split; [reflexivity|];
     split; [subst w2 w1; rewrite !trace_after_ping, <- !app_assoc; reflexivity
            | split; reflexivity]).
Qed.

End Probed.

Lemma succeeds_not_cancelled r : succeeds r = true -> cancelled r = None.
Proof.
  destruct (response_cases r) as [(_ & _ & H)|[(H & _)|(H & _)]]; congruence.
Qed.

Lemma ping_host_Return env host w b w1 :
  ping_host env host w = (Return b, w1) ->
  cancelled (ping_response env w host) = None
  /\ succeeds (ping_response env w host) = b
  /\ w1 = after_ping env w host.
Proof.
  rewrite ping_host_eq.
  destruct (cancelled _); intros H; inversion H; auto.
Qed.

Lemma commands_log_result env msg file w :
  commands (trace (snd (log_result env msg file w))) = commands (trace w).
Proof.
  unfold log_result, bind, now_strftime, try_except, append_to.
  destruct (open_error env w file) as [e|]; cbn.
  - destruct (isinstance e Exception); cbn; [|reflexivity].
    rewrite commands_app. cbn. apply app_nil_r.
  - rewrite commands_app. cbn. apply app_nil_r.
Qed.

Lemma commands_when_log env lg msg file w :
  commands (trace (snd (when lg (log_result env msg file) w))) = commands (trace w).
Proof. destruct lg; [apply commands_log_result | reflexivity]. Qed.

Lemma quiet_steps_time {A} (m : M A) w :
  steps no_sleep m ->
  exists evs,
    trace (snd (m w)) = trace w ++ evs
    /\ chained (clock w) evs (clock (snd (m w)))
    /\ sleeps evs = []
    /\ clock (snd (m w)) = clock w + spawn_time evs.
Proof.
  intros H. destruct (H w) as (evs & T & C & Q). exists evs.
  pose proof (sleeps_quiet _ Q) as S.
  repeat split; auto. apply chained_spawn_time; auto.
Qed.

(** ** Commands and passes *)

Lemma commands_after_ping env w host :
  commands (trace (after_ping env w host)) =
  commands (trace w) ++ [ping_command env host].
Proof. rewrite trace_after_ping, commands_app. reflexivity. Qed.

Lemma commands_emit_print x w :
  commands (trace (emit (Printed x) w)) = commands (trace w).
Proof. cbn. rewrite commands_app. apply app_nil_r. Qed.

Section Pass.
Variable env : Env.
Hypothesis U : uninterrupted env.

Lemma uninterrupted_ping w host : cancelled (ping_response env w host) = None.
Proof. apply U. Qed.

(** The pass of [single_check] over the hosts: one status per host, in
    the order of the list. *)
Lemma single_pass hosts : forall w,
  exists sts evs w',
    for_each hosts (single_host env) w = (Return tt, w')
    /\ trace w' = trace w ++ evs
    /\ length sts = length hosts
    /\ printed evs =
         map (fun hs => single_line (fst hs) (snd hs)) (combine hosts sts)
    /\ commands evs =
         flat_map (fun hs => probe_commands env (fst hs) (snd hs))
           (combine hosts sts).
Proof.
  induction hosts as [|host rest IH]; intros w.
  - exists [], [], w. cbn. rewrite app_nil_r. auto.
  - cbn [for_each]. unfold bind. rewrite single_host_eq. cbv zeta.
    rewrite uninterrupted_ping.
    destruct (succeeds (ping_response env w host)).
    + rewrite uninterrupted_ping.
      set (st := Reachable _). set (w2 := emit _ _).
      destruct (IH w2) as (sts & evs & w' & E & T & L & Pr & C).
      exists (st :: sts),
        ([Spawn (ping_command env host) (clock w)
            (clock w + ping_time (ping_response env w host));
          Spawn (ping_command env host) (clock (after_ping env w host))
            (clock (after_ping env w host)
             + ping_time (ping_response env (after_ping env w host) host));
          Printed (single_line host st)] ++ evs), w'.
      split; [exact E|].
      split; [rewrite T; subst w2; cbn; rewrite <- !app_assoc; reflexivity|].
      split; [cbn; congruence|].
      split; [rewrite printed_app, Pr; reflexivity|].
      rewrite commands_app, C. reflexivity.
    + set (w1 := emit _ _).
      destruct (IH w1) as (sts & evs & w' & E & T & L & Pr & C).
      exists (Unreachable :: sts),
        ([Spawn (ping_command env host) (clock w)
            (clock w + ping_time (ping_response env w host));
          Printed (single_line host Unreachable)] ++ evs), w'.
      split; [exact E|].
      split; [rewrite T; subst w1; cbn; rewrite <- !app_assoc; reflexivity|].
      split; [cbn; congruence|].
      split; [rewrite printed_app, Pr; reflexivity|].
      rewrite commands_app, C. reflexivity.
Qed.

End Pass.

Lemma probed_anchor_worlds env w :
  exists n, (1 <= n <= 3)%nat
    /\ map (fun a => ping_command env (fst a)) (probed env (anchor_worlds env w))
       = map (ping_command env) (firstn n test_hosts).
Proof.
  unfold anchor_worlds, probed. cbv zeta.
  destruct (anchor_reachable env _); [exists 1%nat; split; [lia|reflexivity]|].
  destruct (anchor_reachable env _); [exists 2%nat; split; [lia|reflexivity]|].
  destruct (anchor_reachable env _); exists 3%nat; split; (lia || reflexivity).
Qed.

(** A probe that returns has run the commands of its host, and a pass
    that returns those of every host, in the order of the list. *)
Lemma single_host_commands env host w w1 :
  single_host env host w = (Return tt, w1) ->
  exists st,
    commands (trace w1) = commands (trace w) ++ probe_commands env host st.
Proof.
  rewrite single_host_eq. cbv zeta.
  destruct (cancelled (ping_response env w host)); [discriminate|].
  destruct (succeeds (ping_response env w host)).
  - destruct (cancelled (ping_response env (after_ping env w host) host));
      [discriminate|].
    intros H. injection H as <-.
    exists (Reachable (latency (ping_response env (after_ping env w host) host))).
    rewrite commands_emit_print, !commands_after_ping, <- app_assoc. reflexivity.
  - intros H. injection H as <-. exists Unreachable.
    rewrite commands_emit_print, commands_after_ping. reflexivity.
Qed.

Lemma monitor_host_commands env lg host w w1 :
  monitor_host env lg host w = (Return tt, w1) ->
  exists st,
    commands (trace w1) = commands (trace w) ++ probe_commands env host st.
Proof.
  rewrite monitor_host_eq. cbv zeta.
  destruct (cancelled (ping_response env w host)); [discriminate|].
  destruct (succeeds (ping_response env w host)).
  - destruct (cancelled (ping_response env (after_ping env w host) host));
      [discriminate|].
    intros H. apply (f_equal snd) in H. cbn [snd] in H. subst w1.
    exists (Reachable (latency (ping_response env (after_ping env w host) host))).
    rewrite commands_when_log, commands_emit_print, !commands_after_ping,
      <- app_assoc.
    reflexivity.
  - intros H. apply (f_equal snd) in H. cbn [snd] in H. subst w1.
    exists Unreachable.
    rewrite commands_when_log, commands_emit_print, commands_after_ping.
    reflexivity.
Qed.

Lemma pass_commands env (body : str -> M unit) :
  (forall host w w1,
     body host w = (Return tt, w1) ->
     exists st,
       commands (trace w1) = commands (trace w) ++ probe_commands env host st) ->
  forall hosts w w',
    for_each hosts body w = (Return tt, w') ->
    exists sts,
      length sts = length hosts
      /\ commands (trace w') =
           commands (trace w)
           ++ flat_map (fun hs => probe_commands env (fst hs) (snd hs))
                (combine hosts sts).
Proof.
  intros Hb. induction hosts as [|host rest IH]; intros w w' H.
  - injection H as <-. exists []. cbn. rewrite app_nil_r. auto.
  - cbn [for_each] in H. apply bind_inv in H as ([] & w1 & H1 & Hr).
    destruct (Hb _ _ _ H1) as [st C1].
    destruct (IH _ _ Hr) as (sts & L & C).
    exists (st :: sts). split; [cbn; congruence|].
    rewrite C, C1, <- app_assoc. reflexivity.
Qed.

(* ===================================================================== *)
(** * The claims *)
(* ===================================================================== *)

(** ** C1 *)

(** C1.  Whatever way the ping facility fails for a host (the timeout
    expires, the exit code is not zero, [subprocess.run] raises an
    exception of class [Exception]: missing binary, permission, ...),
    [ping_host] returns [False] and raises nothing; [get_response_time]
    returns [None] in the same case; and the line of the host, in
    [single_check] and in [monitor_hosts], is the UNREACHABLE one, after
    which the pass goes on to the next host. *)
Theorem ping_failure_is_unreachable env w host log_to_file :
  fails (ping_response env w host) = true ->
  ping_host env host w = (Return false, after_ping env w host)
  /\ get_response_time env host w = (Return None, after_ping env w host)
  /\ single_host env host w =
       (Return tt,
        emit (Printed (ljust 20 host ++ py " " ++ [ballot_x]
                       ++ py " UNREACHABLE"))
          (after_ping env w host))
  /\ monitor_host env log_to_file host w =
       when log_to_file
         (log_result env ([ballot_x] ++ py " " ++ host ++ py ": UNREACHABLE")
            default_log_file)
         (emit (Printed ([ballot_x] ++ py " " ++ host ++ py ": UNREACHABLE"))
            (after_ping env w host)).
Proof.
  intros H. destruct (fails_not_succeeds _ H) as [Hc Hs].
  rewrite ping_host_eq, get_response_time_eq, single_host_eq, monitor_host_eq.
  cbv zeta. unfold latency. rewrite Hc, Hs. auto.
Qed.

Lemma ping_failure_is_unreachable_witness :
  fails (ping_response no_ping start host1) = true
  /\ ping_host no_ping host1 start = (Return false, after_ping no_ping start host1).
Proof.
  split; [reflexivity|].
  apply (ping_failure_is_unreachable no_ping start host1 false). reflexivity.
Defined.

(** ** C2 *)

(** C2.  [check_internet_connection] pings 8.8.8.8, 1.1.1.1 and
    google.com in that order; it returns [True] exactly when one of them is
    reachable at its turn and [False] exactly when none is; the commands it
    runs are the pings of the anchors up to the first reachable one, and
    none after it.  (No call is cut short by Ctrl+C.) *)
Theorem check_internet_connection_spec env w :
  uninterrupted env ->
  let anchors := anchor_worlds env w in
  let online := existsb (anchor_reachable env) anchors in
  map fst anchors = [py "8.8.8.8"; py "1.1.1.1"; py "google.com"]
  /\ fst (check_internet_connection env w) = Return online
  /\ (online = true <->
      exists a, In a anchors /\ anchor_reachable env a = true)
  /\ (online = false <->
      forall a, In a anchors -> anchor_reachable env a = false)
  /\ (exists evs,
        trace (snd (check_internet_connection env w)) = trace w ++ evs
        /\ commands evs =
             map (fun a => ping_command env (fst a)) (probed env anchors))
  /\ (exists skipped, anchors = probed env anchors ++ skipped)
  /\ (forall a, In a (removelast (probed env anchors)) ->
        anchor_reachable env a = false)
  /\ (online = true ->
        exists before a, probed env anchors = before ++ [a]
                         /\ anchor_reachable env a = true)
  /\ (online = false -> probed env anchors = anchors).
Proof.
  intros U anchors online.
  destruct (check_internet_connection_eq env w U) as (w' & evs & E & T & C & _).
  rewrite E. cbn [fst snd].
  split; [reflexivity|]. split; [reflexivity|].
  split; [apply existsb_exists|].
  split.
  { subst online. rewrite <- not_true_iff_false, existsb_exists. split.
    - intros H a Ha. destruct (anchor_reachable env a) eqn:R; [|reflexivity].
      exfalso. eauto.
    - intros H (a & Ha & R). rewrite (H a Ha) in R. discriminate. }
  split; [exists evs; auto|].
  split; [apply probed_prefix|].
  split; [apply probed_all_but_last|].
  split; [apply probed_online | apply probed_offline].
Qed.

Lemma check_internet_connection_spec_witness :
  fst (check_internet_connection only_second_anchor start) = Return true
  /\ commands (trace (snd (check_internet_connection only_second_anchor start)))
     = [ [py "ping"; py "-c"; py "1"; py "8.8.8.8"];
         [py "ping"; py "-c"; py "1"; py "1.1.1.1"] ].
Proof.
  split; [|reflexivity].
  apply (check_internet_connection_spec only_second_anchor start).
  intros w c. unfold only_second_anchor, child.
  destruct (str_eqb (nth 3 c []) (py "1.1.1.1")); reflexivity.
Defined.

(** ** C3 *)

(** C3.  When [ping_host] says a host is not reachable, the line of the
    host is the UNREACHABLE one, which has no field for a latency, in
    [single_check] and in [monitor_hosts] alike, and the only command run
    for the host is the ping of the verdict: [get_response_time] is not
    called. *)
Theorem unreachable_has_no_latency env w host w1 log_to_file :
  ping_host env host w = (Return false, w1) ->
  single_host env host w =
    (Return tt,
     emit (Printed (ljust 20 host ++ py " " ++ [ballot_x] ++ py " UNREACHABLE"))
       w1)
  /\ monitor_host env log_to_file host w =
       when log_to_file
         (log_result env ([ballot_x] ++ py " " ++ host ++ py ": UNREACHABLE")
            default_log_file)
         (emit (Printed ([ballot_x] ++ py " " ++ host ++ py ": UNREACHABLE")) w1)
  /\ commands (trace w1) = commands (trace w) ++ [ping_command env host].
Proof.
  intros H. destruct (ping_host_Return _ _ _ _ _ H) as (Hc & Hs & ->).
  rewrite single_host_eq, monitor_host_eq. cbv zeta. rewrite Hc, Hs.
  repeat split. rewrite trace_after_ping, commands_app. reflexivity.
Qed.

Lemma unreachable_has_no_latency_witness :
  single_host all_down host1 start =
    (Return tt,
     emit (Printed (ljust 20 host1 ++ py " " ++ [ballot_x] ++ py " UNREACHABLE"))
       (after_ping all_down start host1)).
Proof.
  apply (unreachable_has_no_latency all_down start host1 _ false).
  reflexivity.
Defined.

(** ** C4 *)

(** C4, as the script has it.  A turn of the loop of [monitor_hosts] that
    comes to its end has run its checks, which took the time of their
    pings, and then slept [interval] seconds in full: the sleep starts
    when the checks end and lasts the whole interval, whatever time the
    checks took, so the next turn starts one interval after the end of
    this one. *)
Theorem round_sleeps_whole_interval env hosts interval log_to_file w w' :
  monitor_round env hosts interval log_to_file w = (Return tt, w') ->
  exists evs,
    let round_end := clock w + spawn_time evs in
    trace w' =
      trace w ++ evs
      ++ [ Printed ([10] ++ py "Next check in " ++ str_of_int interval
                    ++ py " seconds...");
           Sleep interval round_end (round_end + 1000 * interval) ]
    /\ chained (clock w) evs round_end
    /\ sleeps evs = []
    /\ clock w' = round_end + 1000 * interval.
Proof.
  unfold monitor_round. intros H.
  apply bind_inv in H. destruct H as ([] & w1 & H1 & H).
  apply bind_inv in H. destruct H as ([] & w2 & H2 & H).
  unfold print in H2. injection H2 as <-.
  destruct (quiet_steps_time (monitor_checks env hosts log_to_file) w)
    as (evs & T & C & S & K).
  { apply steps_monitor_checks; intros; reflexivity. }
  rewrite H1 in T, C, K. cbn [snd] in T, C, K.
  exists evs. cbv zeta. rewrite <- K.
  assert (E : w' =
    advance (1000 * interval)
      (emit (Sleep interval (clock w1) (clock w1 + 1000 * interval))
         (emit (Printed ([10] ++ py "Next check in " ++ str_of_int interval
                         ++ py " seconds...")) w1))).
  { unfold time_sleep in H. destruct (interval <? 0); [discriminate|].
    cbn [clock emit] in H.
    destruct (interrupt env _) as [n|].
    - destruct (Z.of_N n <? 1000 * interval); [discriminate|].
      injection H as <-. reflexivity.
    - injection H as <-. reflexivity. }
  subst w'. cbn [trace clock advance emit]. rewrite T, <- !app_assoc.
  repeat split; auto.
Qed.

Lemma round_sleeps_whole_interval_witness :
  exists evs,
    let round_end := clock start + spawn_time evs in
    trace (snd (monitor_round all_down [host1] 60 false start)) =
      trace start ++ evs
      ++ [ Printed ([10] ++ py "Next check in " ++ str_of_int 60
                    ++ py " seconds...");
           Sleep 60 round_end (round_end + 1000 * 60) ]
    /\ chained (clock start) evs round_end
    /\ sleeps evs = []
    /\ clock (snd (monitor_round all_down [host1] 60 false start))
       = round_end + 1000 * 60.
Proof.
  apply (round_sleeps_whole_interval all_down [host1] 60 false start).
  vm_compute. reflexivity.
Defined.

(** C4 as stated fails.  Every ping takes two seconds, so the checks of a
    round over one host (three anchors and the host) end at 8 s.  With an
    interval of 60 s the turn ends at 68 s, not at 60 s; with an interval
    of 5 s, shorter than the round, the turn ends at 13 s, not at once at
    8 s; and the second round of [monitor_hosts] is stamped 68000. *)
Lemma sleep_ignores_round_duration :
  clock (snd (monitor_checks all_down [host1] false start)) = 8000
  /\ fst (monitor_round all_down [host1] 60 false start) = Return tt
  /\ clock (snd (monitor_round all_down [host1] 60 false start)) = 68000
  /\ 68000 <> interval_from_start 0 8000 60
  /\ fst (monitor_round all_down [host1] 5 false start) = Return tt
  /\ clock (snd (monitor_round all_down [host1] 5 false start)) = 13000
  /\ 13000 <> interval_from_start 0 8000 5
  /\ round_headers
       (trace (snd (monitor_hosts all_down 2 [host1] 60 false start)))
     = [ [10] ++ py "--- Network Check at 0 ---";
         [10] ++ py "--- Network Check at 68000 ---" ].
Proof. vm_compute. repeat split; discriminate. Qed.

(** ** C5 *)

(** C5, as the script has it.  Every ping command asks for one echo
    request (count argument ["1"], after [-c] or [-n]).  For a host that
    [ping_host] finds unreachable the script runs that command once; for a
    host it finds reachable it runs it twice, once for the verdict and once
    more in [get_response_time] for the time. *)
Theorem probe_pings_once_or_twice env w host up w1 log_to_file :
  ping_host env host w = (Return up, w1) ->
  let sent := if up then [ping_command env host; ping_command env host]
              else [ping_command env host] in
  commands (trace (snd (single_host env host w))) = commands (trace w) ++ sent
  /\ commands (trace (snd (monitor_host env log_to_file host w))) =
       commands (trace w) ++ sent
  /\ (ping_command env host = [py "ping"; py "-c"; py "1"; host]
      \/ ping_command env host = [py "ping"; py "-n"; py "1"; host]).
Proof.
  intros H sent. subst sent.
  destruct (ping_host_Return _ _ _ _ _ H) as (Hc & Hs & ->).
  rewrite single_host_eq, monitor_host_eq. cbv zeta. rewrite Hc, Hs.
  split; [|split].
  - destruct up;
      [destruct (cancelled (ping_response env (after_ping env w host) host))|];
      cbn [snd];
      rewrite ?commands_emit_print, !commands_after_ping, <- ?app_assoc;
      reflexivity.
  - destruct up;
      [destruct (cancelled (ping_response env (after_ping env w host) host))|];
      rewrite ?commands_when_log; cbn [snd];
      rewrite ?commands_emit_print, !commands_after_ping, <- ?app_assoc;
      reflexivity.
  - unfold ping_command. destruct (str_eqb _ _); auto.
Qed.

Lemma probe_pings_once_or_twice_witness :
  commands (trace (snd (single_host all_down host1 start)))
  = commands (trace start) ++ [ping_command all_down host1].
Proof.
  apply (probe_pings_once_or_twice all_down start host1 false
           (after_ping all_down start host1) false).
  reflexivity.
Defined.

(** C5 as stated fails: for a host that answers, one line of
    [single_check] costs two ping commands, so two echo requests. *)
Lemma reachable_host_is_pinged_twice :
  single_host (all_up 12 windows_reply) host1 start
  = (Return tt,
     {| clock := 24;
        trace :=
          [ Spawn [py "ping"; py "-c"; py "1"; host1] 0 12;
            Spawn [py "ping"; py "-c"; py "1"; host1] 12 24;
            Printed (ljust 20 host1 ++ py " " ++ [check_mark]
                     ++ py " REACHABLE (12.0ms)") ] |})
  /\ length (commands
               (trace (snd (single_host (all_up 12 windows_reply) host1 start))))
     = 2%nat.
Proof. vm_compute. split; reflexivity. Qed.

(** ** C6 *)

(** C6, as the script has it.  When the output of a successful ping holds
    ["time="], then an integer or fractional number, then ["ms"] or ["s"]
    right after the number, and neither ["time="] nor ["time<"] earlier,
    [get_response_time] returns the number as a float.  (Other text may
    stand before: the name of a host such as [time.google.com] does no
    harm.) *)
Theorem time_with_unit_is_parsed env w host p pre num unit_ post :
  succeeds (ping_response env w host) = true ->
  ending_of (ping_response env w host) = Exits p ->
  stdout p = pre ++ py "time=" ++ num ++ unit_ ++ post ->
  contains (py "time=") pre = false ->
  contains (py "time<") pre = false ->
  number_text num ->
  unit_ = py "ms" \/ unit_ = py "s" ->
  exists x,
    float_of_str num = Some x
    /\ get_response_time env host w = (Return (Some x), after_ping env w host).
Proof.
  intros S E O He Hl Hn Hu.
  destruct (float_of_number num Hn) as [x Hx]. exists x. split; [exact Hx|].
  rewrite get_response_time_eq, (succeeds_not_cancelled _ S).
  unfold latency. rewrite S, E, O, parsed_time_number, Hx by assumption.
  reflexivity.
Qed.

Lemma time_with_unit_is_parsed_witness :
  exists x,
    float_of_str (py "12.5") = Some x
    /\ get_response_time (all_up 12 named_reply) (py "time.google.com") start
       = (Return (Some x),
          after_ping (all_up 12 named_reply) start (py "time.google.com")).
Proof.
  apply (time_with_unit_is_parsed (all_up 12 named_reply) start
           (py "time.google.com")
           {| returncode := 0; stdout := named_reply |}
           (py "Pinging time.google.com [216.239.35.0] with 32 bytes of data:"
            ++ [10] ++ py "Reply from 216.239.35.0: bytes=32 ")
           (py "12.5") (py "ms") (py " TTL=64")).
  - reflexivity.
  - reflexivity.
  - reflexivity.
  - reflexivity.
  - reflexivity.
  - right. exists (py "12"), (py "5").
    repeat split; try discriminate; repeat constructor.
  - left. reflexivity.
Defined.

(** C6 as stated fails on a time without a unit: ["time=12"] at the end
    of the output is the number 12, which [float()] reads as 12.0, and
    [get_response_time] returns [None]. *)
Lemma time_without_unit_is_not_parsed :
  float_of_str (py "12") = Some (Finite 6755399441055744 (-49))
  /\ parsed_time (py "time=12") = None
  /\ parsed_time unitless_reply = None
  /\ get_response_time (all_up 12 unitless_reply) host1 start
     = (Return None, after_ping (all_up 12 unitless_reply) start host1).
Proof. vm_compute. repeat split. Qed.

(** ** C7 *)

(** C7.  When the ping of the verdict succeeds and the ping of
    [get_response_time] succeeds too but no time can be read out of its
    output, [get_response_time] returns [None] and the line of the host is
    the REACHABLE one without a latency: the host stays reachable. *)
Theorem parse_failure_keeps_reachable env w host w1 p log_to_file :
  ping_host env host w = (Return true, w1) ->
  succeeds (ping_response env w1 host) = true ->
  ending_of (ping_response env w1 host) = Exits p ->
  parsed_time (stdout p) = None ->
  get_response_time env host w1 = (Return None, after_ping env w1 host)
  /\ single_host env host w =
       (Return tt,
        emit (Printed (ljust 20 host ++ py " " ++ [check_mark]
                       ++ py " REACHABLE"))
          (after_ping env w1 host))
  /\ monitor_host env log_to_file host w =
       when log_to_file
         (log_result env ([check_mark] ++ py " " ++ host ++ py ": REACHABLE")
            default_log_file)
         (emit (Printed ([check_mark] ++ py " " ++ host ++ py ": REACHABLE"))
            (after_ping env w1 host)).
Proof.
  intros H S2 E2 Hp. destruct (ping_host_Return _ _ _ _ _ H) as (Hc & Hs & ->).
  rewrite get_response_time_eq, single_host_eq, monitor_host_eq. cbv zeta.
  rewrite Hc, Hs, (succeeds_not_cancelled _ S2).
  unfold latency. rewrite S2, E2, Hp. repeat split.
Qed.

Lemma parse_failure_keeps_reachable_witness :
  single_host (all_up 12 linux_reply) host1 start
  = (Return tt,
     emit (Printed (ljust 20 host1 ++ py " " ++ [check_mark] ++ py " REACHABLE"))
       (after_ping (all_up 12 linux_reply)
          (after_ping (all_up 12 linux_reply) start host1) host1)).
Proof.
  apply (parse_failure_keeps_reachable (all_up 12 linux_reply) start host1
           (after_ping (all_up 12 linux_reply) start host1)
           {| returncode := 0; stdout := linux_reply |} false).
  - reflexivity.
  - reflexivity.
  - reflexivity.
  - vm_compute. reflexivity.
Defined.

(** ** C8 *)

(** C8.  [single_check], on any list of hosts, returns, having printed
    the two header lines, one line for the connectivity (after pinging the
    anchors once, up to the first that answers), the header of the hosts
    and then one line per host, in the order of the list; the commands it
    ran are those of the connectivity check and then those of each host in
    turn; and it never slept.  (No call is cut short by Ctrl+C.) *)
Theorem single_check_is_one_round env hosts w :
  uninterrupted env ->
  exists online n sts evs w',
    single_check env hosts w = (Return tt, w')
    /\ trace w' = trace w ++ evs
    /\ sleeps evs = []
    /\ (1 <= n <= 3)%nat
    /\ length sts = length hosts
    /\ printed evs =
         [ py "Network Status Check - " ++ strftime env (clock w);
           times (py "=") 50;
           (if online : bool
            then py "Internet Connection: " ++ [check_mark] ++ py " ONLINE"
            else py "Internet Connection: " ++ [ballot_x] ++ py " OFFLINE");
           [10] ++ py "Host Connectivity:" ]
         ++ map (fun hs => single_line (fst hs) (snd hs)) (combine hosts sts)
    /\ commands evs =
         map (ping_command env) (firstn n test_hosts)
         ++ flat_map (fun hs => probe_commands env (fst hs) (snd hs))
              (combine hosts sts).
Proof.
  intros U.
  destruct (quiet_single_check env hosts w) as (evs0 & T0 & _ & Q0).
  revert T0. unfold single_check, bind, now_strftime, print.
  set (wa := emit _ (emit _ w)).
  destruct (check_internet_connection_eq env wa U)
    as (wc & evc & Ec & Tc & Cc & Pc).
  destruct (probed_anchor_worlds env wa) as (n & Hn & En).
  rewrite Ec.
  set (online := existsb _ _).
  pose (line := if online
               then py "Internet Connection: " ++ [check_mark] ++ py " ONLINE"
               else py "Internet Connection: " ++ [ballot_x] ++ py " OFFLINE").
  replace ((if online then _ else _) wc)
    with (@Return unit tt, emit (Printed line) wc)
    by (subst line; destruct online; reflexivity).
  set (wb := emit _ (emit _ wc)).
  destruct (single_pass env U hosts wb)
    as (sts & evh & w' & Eh & Th & L & Ph & Ch).
  rewrite Eh. cbn [snd]. intros T0.
  exists online, n, sts,
    ([Printed (py "Network Status Check - " ++ strftime env (clock w));
      Printed (times (py "=") 50)] ++ evc
     ++ [Printed line; Printed ([10] ++ py "Host Connectivity:")] ++ evh), w'.
  assert (T : trace w' = trace w ++
     ([Printed (py "Network Status Check - " ++ strftime env (clock w));
       Printed (times (py "=") 50)] ++ evc
      ++ [Printed line; Printed ([10] ++ py "Host Connectivity:")] ++ evh)).
  { rewrite Th. subst wb. cbn [trace emit]. rewrite Tc. subst wa.
    cbn [trace emit]. rewrite <- !app_assoc. reflexivity. }
  split; [reflexivity|]. split; [exact T|].
  split.
  { rewrite T in T0. apply app_inv_head in T0. rewrite T0.
    apply sleeps_quiet, Q0. }
  split; [exact Hn|]. split; [exact L|]. split.
  - rewrite !printed_app, Pc, Ph. reflexivity.
  - rewrite !commands_app, Cc, Ch, En. reflexivity.
Qed.

Lemma single_check_is_one_round_witness :
  exists online n sts evs w',
    single_check all_down [host1; host2; host3] start = (Return tt, w')
    /\ trace w' = trace start ++ evs
    /\ sleeps evs = []
    /\ (1 <= n <= 3)%nat
    /\ length sts = length [host1; host2; host3]
    /\ printed evs =
         [ py "Network Status Check - " ++ strftime all_down (clock start);
           times (py "=") 50;
           (if online : bool
            then py "Internet Connection: " ++ [check_mark] ++ py " ONLINE"
            else py "Internet Connection: " ++ [ballot_x] ++ py " OFFLINE");
           [10] ++ py "Host Connectivity:" ]
         ++ map (fun hs => single_line (fst hs) (snd hs))
              (combine [host1; host2; host3] sts)
    /\ commands evs =
         map (ping_command all_down) (firstn n test_hosts)
         ++ flat_map (fun hs => probe_commands all_down (fst hs) (snd hs))
              (combine [host1; host2; host3] sts).
Proof.
  apply (single_check_is_one_round all_down [host1; host2; host3] start).
  intros w c. reflexivity.
Defined.

(** ** C9 *)

(** C9, as the script has it.  A pass over the hosts that comes to its
    end, in [monitor_hosts] and in [single_check], has probed the hosts in
    the order of the list, one after the other: the commands it ran are
    the one or two pings of the first host, then those of the second, and
    so on; every command started at the instant the one before it
    finished (the events are chained); and the time the pass took is the
    sum of the times of its commands. *)
Theorem host_probes_are_sequential env hosts log_to_file w w' :
  for_each hosts (monitor_host env log_to_file) w = (Return tt, w')
  \/ for_each hosts (single_host env) w = (Return tt, w') ->
  exists sts evs,
    trace w' = trace w ++ evs
    /\ length sts = length hosts
    /\ commands evs =
         flat_map (fun hs => probe_commands env (fst hs) (snd hs))
           (combine hosts sts)
    /\ chained (clock w) evs (clock w')
    /\ sleeps evs = []
    /\ clock w' = clock w + spawn_time evs.
Proof.
  intros H.
  assert (Q : exists evs,
             trace w' = trace w ++ evs
             /\ chained (clock w) evs (clock w')
             /\ sleeps evs = []
             /\ clock w' = clock w + spawn_time evs).
  { destruct H as [H|H]; apply (f_equal snd) in H; cbn [snd] in H; subst w';
      apply quiet_steps_time, steps_for_each; intros;
      (apply steps_monitor_host || apply steps_single_host); intros; reflexivity. }
  assert (O : exists sts,
             length sts = length hosts
             /\ commands (trace w') =
                  commands (trace w)
                  ++ flat_map (fun hs => probe_commands env (fst hs) (snd hs))
                       (combine hosts sts)).
  { destruct H as [H|H].
    - apply (pass_commands env (monitor_host env log_to_file)); [|exact H].
      apply monitor_host_commands.
    - apply (pass_commands env (single_host env)); [|exact H].
      apply single_host_commands. }
  destruct Q as (evs & T & C & S & K). destruct O as (sts & L & O).
  exists sts, evs. rewrite T, commands_app in O. apply app_inv_head in O.
  auto 10.
Qed.

Lemma host_probes_are_sequential_witness :
  exists sts evs,
    trace (snd (for_each [host1; host2; host3] (single_host all_silent) start))
    = trace start ++ evs
    /\ length sts = length [host1; host2; host3]
    /\ commands evs =
         flat_map (fun hs => probe_commands all_silent (fst hs) (snd hs))
           (combine [host1; host2; host3] sts)
    /\ chained (clock start) evs
         (clock (snd (for_each [host1; host2; host3] (single_host all_silent)
                        start)))
    /\ sleeps evs = []
    /\ clock (snd (for_each [host1; host2; host3] (single_host all_silent) start))
       = clock start + spawn_time evs.
Proof.
  apply (host_probes_are_sequential all_silent [host1; host2; host3] false start
           (snd (for_each [host1; host2; host3] (single_host all_silent) start))).
  right. reflexivity.
Defined.

(** C9 as stated fails: with three hosts that never answer, every ping
    runs into the timeout of ten seconds, the second starts when the first
    is over and the third when the second is over, and the pass takes
    thirty seconds, the sum, three times the longest ping. *)
Lemma host_probes_are_not_concurrent :
  let w' := snd (for_each [host1; host2; host3] (single_host all_silent) start) in
  spawn_spans (trace w') = [(0, 10000); (10000, 20000); (20000, 30000)]
  /\ clock w' - clock start = 30000
  /\ longest_spawn (trace w') = 10000
  /\ spawn_time (trace w') = 30000.
Proof. vm_compute. repeat split. Qed.

(** ** C10 *)

(** C10.  When the host is reachable and the time read out of the output
    of [get_response_time]'s ping is exactly 0.0, the line of the host is
    the REACHABLE one without a latency, in [single_check] and in
    [monitor_hosts]: [if response_time:] is false on 0.0 as it is on
    [None]. *)
Theorem zero_time_is_not_shown env w host w1 p log_to_file :
  ping_host env host w = (Return true, w1) ->
  succeeds (ping_response env w1 host) = true ->
  ending_of (ping_response env w1 host) = Exits p ->
  parsed_time (stdout p) = Some zero ->
  get_response_time env host w1 = (Return (Some zero), after_ping env w1 host)
  /\ single_host env host w =
       (Return tt,
        emit (Printed (ljust 20 host ++ py " " ++ [check_mark]
                       ++ py " REACHABLE"))
          (after_ping env w1 host))
  /\ monitor_host env log_to_file host w =
       when log_to_file
         (log_result env ([check_mark] ++ py " " ++ host ++ py ": REACHABLE")
            default_log_file)
         (emit (Printed ([check_mark] ++ py " " ++ host ++ py ": REACHABLE"))
            (after_ping env w1 host)).
Proof.
  intros H S2 E2 Hp. destruct (ping_host_Return _ _ _ _ _ H) as (Hc & Hs & ->).
  rewrite get_response_time_eq, single_host_eq, monitor_host_eq. cbv zeta.
  rewrite Hc, Hs, (succeeds_not_cancelled _ S2).
  unfold latency. rewrite S2, E2, Hp. repeat split.
Qed.

Lemma zero_time_is_not_shown_witness :
  single_host (all_up 0 zero_reply) host1 start
  = (Return tt,
     emit (Printed (ljust 20 host1 ++ py " " ++ [check_mark] ++ py " REACHABLE"))
       (after_ping (all_up 0 zero_reply)
          (after_ping (all_up 0 zero_reply) start host1) host1)).
Proof.
  apply (zero_time_is_not_shown (all_up 0 zero_reply) start host1
           (after_ping (all_up 0 zero_reply) start host1)
           {| returncode := 0; stdout := zero_reply |} false).
  - reflexivity.
  - reflexivity.
  - reflexivity.
  - vm_compute. reflexivity.
Defined.

(* ===================================================================== *)
(** * Sample runs *)
(* ===================================================================== *)

(** [float()] and [repr()] on a few texts. *)
Example repr_of_floats :
  map (fun s => option_map repr (float_of_str (py s)))
    ["12"; "12.50"; "0.1"; "0.045"; "0.00001"; "12345678901234567890"; "1."]%string
  = map (fun s => Some (py s))
      ["12.0"; "12.5"; "0.1"; "0.045"; "1e-05"; "1.2345678901234567e+19"; "1.0"]%string.
Proof. vm_compute. reflexivity. Qed.

(** A text that is not a number is a [ValueError]. *)
Example float_of_words : float_of_str (py "12.5.3") = None.
Proof. reflexivity. Qed.

(** The reply line of Windows gives its time; the reply line of Linux,
    where a blank stands between the number and the unit, gives none. *)
Example parsed_replies :
  option_map repr (parsed_time windows_reply) = Some (py "12.0")
  /\ parsed_time linux_reply = None
  /\ parsed_time zero_reply = Some zero
  /\ parsed_time (py "time<1ms") = None
  /\ option_map repr (parsed_time (py "time<1ms time=")) = Some (py "1.0").
Proof. vm_compute. repeat split. Qed.

(** The first match counts: a ["time<"] that stands earlier is the one
    that is read; the name of a host is passed over. *)
Example earlier_time_is_read :
  option_map repr (parsed_time (py "time<5s time=12ms")) = Some (py "5.0")
  /\ option_map repr (parsed_time named_reply) = Some (py "12.5").
Proof. vm_compute. split; reflexivity. Qed.

(** Neither function lets an exception of class [Exception] out. *)
Lemma ping_host_raises_only_cancellation env host w e :
  fst (ping_host env host w) = Raise e -> isinstance e Exception = false.
Proof.
  rewrite ping_host_eq. unfold cancelled. cbn [fst].
  destruct (timed_out _); [discriminate|].
  destruct (ending_of _) as [p|e']; [discriminate|].
  destruct (isinstance e' Exception) eqn:E; [discriminate|].
  intros H. injection H as <-. exact E.
Qed.

Lemma get_response_time_raises_only_cancellation env host w e :
  fst (get_response_time env host w) = Raise e -> isinstance e Exception = false.
Proof.
  rewrite get_response_time_eq. unfold cancelled. cbn [fst].
  destruct (timed_out _); [discriminate|].
  destruct (ending_of _) as [p|e']; [discriminate|].
  destruct (isinstance e' Exception) eqn:E; [discriminate|].
  intros H. injection H as <-. exact E.
Qed.

(** Ctrl+C during the first sleep: [monitor_hosts] returns, having said
    so on the console and in the log. *)
Example monitor_hosts_stopped_by_user :
  let '(r, w) := monitor_hosts impatient 5 [host1] 60 true start in
  r = Return tt
  /\ clock w = 590
  /\ sleeps (trace w) = [60]
  /\ last (printed (trace w)) [] = [10; 10] ++ py "Monitoring stopped by user."
  /\ last (trace w) (Printed [])
     = Appended (py "network_monitor.log")
         (py "[590] Network monitoring stopped by user" ++ [10]).
Proof. vm_compute. repeat split. Qed.

(** Without Ctrl+C the loop never ends: the model is still running after
    any number of rounds. *)
Lemma monitor_loop_goes_on fuel : forall w,
  fst (while_true fuel (monitor_round all_down [host1] 60 false) w) = Running.
Proof.
  induction fuel as [|fuel IH]; intros w; [reflexivity|].
  cbn [while_true]. unfold bind.
  destruct (monitor_round all_down [host1] 60 false w) as [[[]|e|] w1] eqn:E.
  - apply IH.
  - exfalso. revert E. unfold monitor_round, monitor_checks, bind.
    vm_compute. discriminate.
  - exfalso. revert E. vm_compute. discriminate.
Qed.

(* ===================================================================== *)
(** * Further properties *)
(* ===================================================================== *)

(** ** What the monitor lets out

    With the console taken to accept every line, the failures of the pings
    and of the log stay inside the functions that meet them. *)

Lemma find_handler_some {A} (clauses : list (exn_class * (exn -> M A))) e h :
  find_handler clauses e = Some h ->
  exists c h0, In (c, h0) clauses /\ isinstance e c = true /\ h = h0 e.
Proof.
  induction clauses as [|[c h0] rest IH]; cbn [find_handler]; [discriminate|].
  destruct (isinstance e c) eqn:E.
  - intros H. injection H as <-. exists c, h0. cbn. auto.
  - intros H. destruct (IH H) as (c' & h' & Hin & Hc & ->).
    exists c', h'. cbn. auto.
Qed.













Section Contained.

Variable env : Env.









End Contained.

(** ** Functions that come to their end *)

Lemma finishes_ret {A} (a : A) : finishes (ret a).
Proof. intros w. exists a, w. reflexivity. Qed.

Lemma finishes_bind {A B} (m : M A) (k : A -> M B) :
  finishes m -> (forall a, finishes (k a)) -> finishes (bind m k).
Proof.
  intros Hm Hk w. destruct (Hm w) as (a & w1 & E).
  unfold bind. rewrite E. apply Hk.
Qed.

Lemma finishes_for_each {A} (xs : list A) body :
  (forall x, finishes (body x)) -> finishes (for_each xs body).
Proof.
  intros Hb. induction xs; cbn [for_each]; [apply finishes_ret|].
  apply finishes_bind; auto.
Qed.

Lemma finishes_for_ {A R} (xs : list A) (body : A -> M (option R)) :
  (forall x, finishes (body x)) -> finishes (for_ xs body).
Proof.
  intros Hb. induction xs; cbn [for_]; [apply finishes_ret|].
  apply finishes_bind; auto. intros [v|]; [apply finishes_ret|auto].
Qed.

Lemma finishes_when c body : finishes body -> finishes (when c body).
Proof. destruct c; cbn; auto using finishes_ret. Qed.

Lemma finishes_print x : finishes (print x).
Proof. intros w. eexists _, _. reflexivity. Qed.

Section Finishes.

Variable env : Env.
Hypothesis U : uninterrupted env.
Hypothesis L : log_safe env.

Lemma finishes_ping_host host : finishes (ping_host env host).
Proof.
  intros w. rewrite ping_host_eq, uninterrupted_ping by exact U.
  eexists _, _. reflexivity.
Qed.

Lemma finishes_get_response_time host : finishes (get_response_time env host).
Proof.
  intros w. rewrite get_response_time_eq, uninterrupted_ping by exact U.
  eexists _, _. reflexivity.
Qed.

Lemma finishes_check_internet_connection :
  finishes (check_internet_connection env).
Proof.
  unfold check_internet_connection. apply finishes_bind.
  - apply finishes_for_. intros host.
    apply finishes_bind; [apply finishes_ping_host|].
    intros []; apply finishes_ret.
  - intros [v|]; apply finishes_ret.
Qed.

Lemma finishes_log_result msg file : finishes (log_result env msg file).
Proof.
  intros w. unfold log_result, bind, now_strftime, try_except, append_to.
  destruct (open_error env w file) as [e|] eqn:E.
  - cbn [find_handler]. rewrite (L _ _ _ E). eexists _, _. reflexivity.
  - eexists _, _. reflexivity.
Qed.

Lemma finishes_single_host host : finishes (single_host env host).
Proof.
  unfold single_host. apply finishes_bind; [apply finishes_ping_host|].
  intros []; [|apply finishes_print].
  apply finishes_bind; [apply finishes_get_response_time|].
  intros t. destruct (truth t); apply finishes_print.
Qed.

Lemma finishes_monitor_host lg host : finishes (monitor_host env lg host).
Proof.
  unfold monitor_host. apply finishes_bind; [apply finishes_ping_host|].
  intros [].
  - apply finishes_bind; [apply finishes_get_response_time|]. intros t.
    apply finishes_bind; [apply finishes_print|]. intros _.
    apply finishes_when, finishes_log_result.
  - apply finishes_bind; [apply finishes_print|]. intros _.
    apply finishes_when, finishes_log_result.
Qed.

Lemma finishes_monitor_checks hosts lg : finishes (monitor_checks env hosts lg).
Proof.
  unfold monitor_checks.
  apply finishes_bind; [intros w; eexists _, _; reflexivity|]. intros ts.
  apply finishes_bind; [apply finishes_print|]. intros _.
  apply finishes_bind; [apply finishes_check_internet_connection|].
  intros online.
  apply finishes_bind.
  - destruct online; (apply finishes_bind; [apply finishes_print|]; intros _;
      apply finishes_when, finishes_log_result).
  - intros _. apply finishes_for_each. intros; apply finishes_monitor_host.
Qed.

End Finishes.

(** ** Stopping the monitor *)

Lemma while_true_never_returns fuel body : forall w a,
  fst (while_true fuel body w) <> Return a.
Proof.
  induction fuel as [|fuel IH]; intros w a; cbn [while_true]; [discriminate|].
  unfold bind. destruct (body w) as [[x|e|] w1]; cbn [fst]; try discriminate.
  apply IH.
Qed.

Lemma printed_steps {A} (m : M A) w x :
  steps (fun _ => True) m ->
  In x (printed (trace w)) -> In x (printed (trace (snd (m w)))).
Proof.
  intros H Hin. destruct (H w) as (evs & T & _). rewrite T, printed_app.
  apply in_or_app. auto.
Qed.

Lemma steps_time_sleep env seconds : steps (fun _ => True) (time_sleep env seconds).
Proof.
  intros w. unfold time_sleep.
  destruct (seconds <? 0) eqn:E.
  { exists []. cbn. rewrite app_nil_r. repeat split; constructor. }
  apply Z.ltb_ge in E.
  destruct (interrupt env w) as [n|]; [destruct (Z.of_N n <? 1000 * seconds)|].
  - exists [Sleep seconds (clock w) (clock w + Z.of_N n)].
    cbn [snd trace clock advance emit].
    repeat split; [|repeat constructor].
    apply chained_sleep; [lia | constructor].
  - exists [Sleep seconds (clock w) (clock w + 1000 * seconds)].
    cbn [snd trace clock advance emit].
    repeat split; [|repeat constructor].
    apply chained_sleep; [lia | constructor].
  - exists [Sleep seconds (clock w) (clock w + 1000 * seconds)].
    cbn [snd trace clock advance emit].
    repeat split; [|repeat constructor].
    apply chained_sleep; [lia | constructor].
Qed.

Lemma steps_while_true_round env fuel hosts interval lg :
  steps (fun _ => True) (while_true fuel (monitor_round env hosts interval lg)).
Proof.
  apply steps_while_true; auto. unfold monitor_round.
  apply steps_bind; auto; [apply steps_monitor_checks; auto|]. intros _.
  apply steps_bind; auto; [apply steps_print; auto|]. intros _.
  apply steps_time_sleep.
Qed.

(** The four lines [monitor_hosts] prints before its loop. *)
Lemma monitor_hosts_unfold env fuel hosts interval lg w :
  exists w4,
    trace w4 = trace w ++ [ Printed (py "Starting Network Monitor...");
                            Printed (py "Monitoring hosts: " ++ join (py ", ") hosts);
                            Printed (py "Check interval: " ++ str_of_int interval
                                     ++ py " seconds");
                            Printed (py "Press Ctrl+C to stop monitoring" ++ [10]) ]
    /\ clock w4 = clock w
    /\ monitor_hosts env fuel hosts interval lg w =
       try_except
         (while_true fuel (monitor_round env hosts interval lg))
         [ (KeyboardInterrupt, fun _ =>
              print stopped_by_user ;;
              when lg
                (log_result env (py "Network monitoring stopped by user")
                   default_log_file)) ] w4.
Proof.
  eexists. split; [|split; [|reflexivity]].
  - cbn [trace emit]. rewrite <- !app_assoc. reflexivity.
  - reflexivity.
Qed.

(** X3.  [monitor_hosts] has one way to return: its loop was cut by
    Ctrl+C, and it has said so on the console.  Whenever it returns,
    ["Monitoring stopped by user."] is among the lines it printed. *)
Theorem monitor_hosts_returns_only_stopped env fuel hosts interval log_to_file
    w w' :
  monitor_hosts env fuel hosts interval log_to_file w = (Return tt, w') ->
  In stopped_by_user (skipn (length (printed (trace w))) (printed (trace w'))).
Proof.
  destruct (monitor_hosts_unfold env fuel hosts interval log_to_file w)
    as (w4 & T4 & _ & ->).
  unfold try_except.
  pose proof (while_true_never_returns fuel
                (monitor_round env hosts interval log_to_file) w4) as NR.
  destruct (while_true fuel _ w4) as [[a|e|] w5] eqn:E; cbn [fst] in NR.
  - exfalso. apply (NR a). reflexivity.
  - cbn [find_handler]. destruct (isinstance e KeyboardInterrupt); [|discriminate].
    unfold bind at 1. unfold print at 1. intros H.
    assert (W : w' = snd (when log_to_file
                            (log_result env (py "Network monitoring stopped by user")
                               default_log_file)
                            (emit (Printed stopped_by_user) w5))).
    { rewrite H. reflexivity. }
    assert (S5 : exists evs, trace w5 = trace w ++ evs).
    { destruct (steps_while_true_round env fuel hosts interval log_to_file w4)
        as (evs & T & _).
      rewrite E in T. cbn [snd] in T.
      eexists. rewrite T, T4, <- app_assoc. reflexivity. }
    destruct S5 as (evs5 & T5).
    assert (Hl : steps (fun _ => True)
                   (when log_to_file
                      (log_result env (py "Network monitoring stopped by user")
                         default_log_file))).
    { apply steps_when, steps_log_result; auto. }
    destruct (Hl (emit (Printed stopped_by_user) w5)) as (evl & Tl & _).
    rewrite <- W in Tl. rewrite Tl. cbn [trace emit]. rewrite T5.
    rewrite !printed_app, <- !app_assoc, skipn_app, skipn_all, Nat.sub_diag.
    cbn [skipn app]. apply in_or_app. right. apply in_or_app. left.
    cbn. auto.
  - discriminate.
Qed.

Lemma monitor_hosts_returns_only_stopped_witness :
  In stopped_by_user
    (skipn (length (printed (trace start)))
       (printed (trace (snd (monitor_hosts impatient 5 [host1] 60 true start))))).
Proof.
  apply (monitor_hosts_returns_only_stopped impatient 5 [host1] 60 true start).
  vm_compute. reflexivity.
Defined.

Lemma clock_log_result env msg file w :
  clock (snd (log_result env msg file w)) = clock w.
Proof.
  unfold log_result, bind, now_strftime, try_except, append_to.
  destruct (open_error env w file) as [e|]; cbn [find_handler]; [|reflexivity].
  destruct (isinstance e Exception); reflexivity.
Qed.

Lemma sleeps_log_result env msg file w :
  sleeps (trace (snd (log_result env msg file w))) = sleeps (trace w).
Proof.
  unfold log_result, bind, now_strftime, try_except, append_to.
  destruct (open_error env w file) as [e|]; cbn [find_handler].
  - destruct (isinstance e Exception); cbn; [|reflexivity].
    rewrite sleeps_app. cbn. apply app_nil_r.
  - cbn. rewrite sleeps_app. cbn. apply app_nil_r.
Qed.

Section Rounds.

Variable env : Env.
Hypothesis U : uninterrupted env.
Hypothesis L : log_safe env.

Lemma monitor_checks_return hosts lg w :
  monitor_checks env hosts lg w = (Return tt, snd (monitor_checks env hosts lg w)).
Proof.
  destruct (finishes_monitor_checks env U L hosts lg w) as ([] & w1 & E).
  rewrite E. reflexivity.
Qed.

Lemma monitor_round_eq hosts interval lg w :
  monitor_round env hosts interval lg w =
  time_sleep env interval
    (emit (Printed ([10] ++ py "Next check in " ++ str_of_int interval
                    ++ py " seconds..."))
       (snd (monitor_checks env hosts lg w))).
Proof.
  unfold monitor_round, bind at 1. rewrite monitor_checks_return. reflexivity.
Qed.

Lemma log_result_return msg file w :
  log_result env msg file w = (Return tt, snd (log_result env msg file w)).
Proof.
  destruct (finishes_log_result env L msg file w) as ([] & w1 & E).
  rewrite E. reflexivity.
Qed.

End Rounds.

Lemma sleeps_at_first_sleep env hosts interval lg w :
  sleeps (trace (at_first_sleep env hosts interval lg w)) = sleeps (trace w).
Proof.
  unfold at_first_sleep. cbn [trace emit]. rewrite sleeps_app.
  destruct (steps_monitor_checks no_sleep (fun _ _ _ => eq_refl)
              (fun _ => eq_refl) (fun _ _ => eq_refl) env hosts lg
              (after_start hosts interval w)) as (evs & T & _ & Q).
  rewrite T, sleeps_app, (sleeps_quiet _ Q). cbn [trace emit after_start].
  rewrite !sleeps_app. cbn. rewrite !app_nil_r. reflexivity.
Qed.

Lemma monitor_hosts_negative env fuel hosts interval lg w :
  uninterrupted env ->
  log_safe env ->
  interval < 0 ->
  monitor_hosts env (S fuel) hosts interval lg w
  = (Raise {| class_of := ValueError;
              message := py "sleep length must be non-negative" |},
     at_first_sleep env hosts interval lg w).
Proof.
  intros U L Hi.
  unfold monitor_hosts, bind, print. fold (after_start hosts interval w).
  unfold try_except. cbn [while_true]. unfold bind at 1.
  rewrite monitor_round_eq by assumption.
  fold (at_first_sleep env hosts interval lg w).
  unfold time_sleep. apply Z.ltb_lt in Hi. rewrite Hi. reflexivity.
Qed.

(** X4.  A negative interval is found out only at the first sleep: when
    no ping is cut short and the log fails at worst with an [Exception],
    [monitor_hosts] prints its four lines, runs the checks of one whole
    round, announces the next check, and then raises the [ValueError] of
    [time.sleep], without having slept. *)
Theorem negative_interval_fails_after_one_round env fuel hosts interval
    log_to_file w :
  uninterrupted env ->
  log_safe env ->
  interval < 0 ->
  monitor_hosts env (S fuel) hosts interval log_to_file w
  = (Raise {| class_of := ValueError;
              message := py "sleep length must be non-negative" |},
     at_first_sleep env hosts interval log_to_file w)
  /\ fst (monitor_checks env hosts log_to_file (after_start hosts interval w))
     = Return tt
  /\ sleeps (trace (at_first_sleep env hosts interval log_to_file w))
     = sleeps (trace w).
Proof.
  intros U L Hi. split; [|split].
  - apply monitor_hosts_negative; assumption.
  - rewrite monitor_checks_return by assumption. reflexivity.
  - apply sleeps_at_first_sleep.
Qed.

Lemma negative_interval_fails_after_one_round_witness :
  fst (monitor_hosts all_down 4 [host1] (-5) true start)
  = Raise {| class_of := ValueError;
             message := py "sleep length must be non-negative" |}.
Proof.
  assert (H := negative_interval_fails_after_one_round all_down 3 [host1] (-5)
                 true start).
  destruct H as [H _].
  - intros w c. reflexivity.
  - intros w f e. discriminate.
  - lia.
  - rewrite H. reflexivity.
Defined.

(** X5.  Ctrl+C during the sleep between two rounds stops the monitor at
    once: [monitor_hosts] returns, the sleep has lasted only until the
    interrupt, no ping was run after it, and the stop is printed. *)
Theorem ctrl_c_in_sleep_stops_at_once env fuel hosts interval log_to_file w n :
  uninterrupted env ->
  log_safe env ->
  0 <= interval <= longest_sleep ->
  interrupt env (at_first_sleep env hosts interval log_to_file w) = Some n ->
  Z.of_N n < 1000 * interval ->
  let ws := at_first_sleep env hosts interval log_to_file w in
  let w' := snd (monitor_hosts env (S fuel) hosts interval log_to_file w) in
  fst (monitor_hosts env (S fuel) hosts interval log_to_file w) = Return tt
  /\ clock w' = clock ws + Z.of_N n
  /\ sleeps (trace w') = sleeps (trace w) ++ [interval]
  /\ commands (trace w') = commands (trace ws)
  /\ In stopped_by_user (printed (trace w')).
Proof.
  intros U L [Hi _] Hn Hlt ws w'. change (interrupt env ws = Some n) in Hn.
  assert (E : monitor_hosts env (S fuel) hosts interval log_to_file w
              = when log_to_file
                  (log_result env (py "Network monitoring stopped by user")
                     default_log_file)
                  (emit (Printed stopped_by_user)
                     (advance (Z.of_N n)
                        (emit (Sleep interval (clock ws) (clock ws + Z.of_N n)) ws)))).
  { unfold monitor_hosts, bind at 1 2 3 4, print at 1 2 3 4.
    fold (after_start hosts interval w).
    unfold try_except. cbn [while_true]. unfold bind at 1.
    rewrite monitor_round_eq by assumption.
    fold (at_first_sleep env hosts interval log_to_file w). fold ws.
    unfold time_sleep.
    replace (interval <? 0) with false by (symmetry; apply Z.ltb_ge; lia).
    rewrite Hn. apply Z.ltb_lt in Hlt. rewrite Hlt.
    cbn [find_handler]. change (isinstance _ KeyboardInterrupt) with true.
    cbv iota. reflexivity. }
  subst w'. rewrite E. clear E.
  set (w1 := emit (Printed stopped_by_user) _).
  assert (S1 : sleeps (trace w1) = sleeps (trace w) ++ [interval]).
  { subst w1. cbn [trace emit advance]. rewrite !sleeps_app. cbn.
    rewrite app_nil_r. f_equal.
    apply (sleeps_at_first_sleep env hosts interval log_to_file w). }
  destruct log_to_file.
  - cbn [when]. rewrite log_result_return by assumption. cbn [fst snd].
    rewrite clock_log_result, sleeps_log_result, commands_log_result.
    split; [reflexivity|]. split; [reflexivity|]. split; [exact S1|].
    split; [subst w1; rewrite commands_emit_print; cbn [trace emit advance];
            rewrite commands_app; cbn; apply app_nil_r|].
    apply printed_steps; [apply steps_log_result; auto|].
    subst w1. cbn [trace emit]. rewrite printed_app. apply in_or_app. right.
    cbn. auto.
  - cbn [when ret fst snd].
    split; [reflexivity|]. split; [reflexivity|]. split; [exact S1|].
    split; [subst w1; rewrite commands_emit_print; cbn [trace emit advance];
            rewrite commands_app; cbn; apply app_nil_r|].
    subst w1. cbn [trace emit]. rewrite printed_app. apply in_or_app. right.
    cbn. auto.
Qed.

Lemma ctrl_c_in_sleep_stops_at_once_witness :
  fst (monitor_hosts stopped_early 2 [host1] 60 true start) = Return tt
  /\ clock (snd (monitor_hosts stopped_early 2 [host1] 60 true start))
     = clock (at_first_sleep stopped_early [host1] 60 true start) + 3000.
Proof.
  assert (H := ctrl_c_in_sleep_stops_at_once stopped_early 1 [host1] 60 true
                 start 3000%N).
  cbv zeta in H. destruct H as (H1 & H2 & _).
  - intros w c. reflexivity.
  - intros w f e. discriminate.
  - unfold longest_sleep. lia.
  - reflexivity.
  - reflexivity.
  - split; [exact H1 | exact H2].
Defined.

(** ** The pings of a round *)

Lemma spawns_ret {A} (a : A) : spawns_at_most 0 (ret a).
Proof. intros w. cbn. lia. Qed.

Lemma spawns_weaken {A} (m : M A) a b :
  (a <= b)%nat -> spawns_at_most a m -> spawns_at_most b m.
Proof. intros Hab H w. specialize (H w). lia. Qed.

Lemma spawns_bind {A B} (m : M A) (k : A -> M B) a b :
  spawns_at_most a m -> (forall x, spawns_at_most b (k x)) ->
  spawns_at_most (a + b) (bind m k).
Proof.
  intros Hm Hk w. unfold bind. specialize (Hm w).
  destruct (m w) as [[x|e|] w1]; cbn [snd] in *.
  - specialize (Hk x w1). lia.
  - lia.
  - lia.
Qed.

Lemma spawns_try_except {A} (body : M A) clauses a b :
  spawns_at_most a body ->
  (forall c h e, In (c, h) clauses -> spawns_at_most b (h e)) ->
  spawns_at_most (a + b) (try_except body clauses).
Proof.
  intros Hm Hh w. unfold try_except. specialize (Hm w).
  destruct (body w) as [[x|e|] w1]; cbn [snd] in *; try lia.
  destruct (find_handler clauses e) as [h|] eqn:F; [|cbn [snd]; lia].
  destruct (find_handler_some _ _ _ F) as (c & h0 & Hc & _ & ->).
  specialize (Hh c h0 e Hc w1). lia.
Qed.

Lemma spawns_for_each {A} (xs : list A) body b :
  (forall x, spawns_at_most b (body x)) ->
  spawns_at_most (b * length xs) (for_each xs body).
Proof.
  intros H. induction xs as [|x xs IH]; cbn [for_each length].
  - apply (spawns_weaken _ 0); [lia | apply spawns_ret].
  - replace (b * S (length xs))%nat with (b + b * length xs)%nat by lia.
    apply spawns_bind; [apply H | intros _; exact IH].
Qed.

Lemma spawns_for_ {A R} (xs : list A) (body : A -> M (option R)) b :
  (forall x, spawns_at_most b (body x)) ->
  spawns_at_most (b * length xs) (for_ xs body).
Proof.
  intros H. induction xs as [|x xs IH]; cbn [for_ length].
  - apply (spawns_weaken _ 0); [lia | apply spawns_ret].
  - replace (b * S (length xs))%nat with (b + b * length xs)%nat by lia.
    apply spawns_bind; [apply H|].
    intros [v|]; [|exact IH].
    apply (spawns_weaken _ 0); [lia | apply spawns_ret].
Qed.

Lemma spawns_when c body : spawns_at_most 0 body -> spawns_at_most 0 (when c body).
Proof. destruct c; cbn; auto using spawns_ret. Qed.

Lemma spawns_print x : spawns_at_most 0 (print x).
Proof. intros w. unfold print. cbn [snd]. rewrite commands_emit_print. lia. Qed.

Section Spawns.

Variable env : Env.

Lemma spawns_subprocess_run command seconds :
  spawns_at_most 1 (subprocess_run env command seconds).
Proof.
  intros w. unfold subprocess_run.
  destruct (_ <? _); [|destruct (ending_of _)];
    cbn [snd trace advance emit]; rewrite commands_app, length_app; cbn; lia.
Qed.

Lemma spawns_ping_host host : spawns_at_most 1 (ping_host env host).
Proof.
  unfold ping_host. apply (spawns_try_except _ _ 1 0).
  - apply (spawns_bind _ _ 1 0); [apply spawns_subprocess_run|].
    intros p. apply spawns_ret.
  - intros c h e [H|[H|[]]]; injection H as <- <-; apply spawns_ret.
Qed.

Lemma spawns_get_response_time host : spawns_at_most 1 (get_response_time env host).
Proof.
  unfold get_response_time. apply (spawns_try_except _ _ 1 0).
  - apply (spawns_bind _ _ 1 0); [apply spawns_subprocess_run|].
    intros p. destruct (returncode p =? 0); [|apply spawns_ret].
    destruct (contains _ _); [|apply spawns_ret].
    destruct (search _ _) as [m|]; [|apply spawns_ret].
    apply (spawns_bind _ _ 0 0); [|intros; apply spawns_ret].
    unfold float_of_group, float_. destruct (group1 m) as [t|];
      [destruct (float_of_str t)|]; intros w; cbn; lia.
  - intros c h e [H|[]]. injection H as <- <-. apply spawns_ret.
Qed.

Lemma spawns_log_result msg file : spawns_at_most 0 (log_result env msg file).
Proof. intros w. rewrite commands_log_result. lia. Qed.

Lemma spawns_check_internet_connection :
  spawns_at_most 3 (check_internet_connection env).
Proof.
  unfold check_internet_connection.
  apply (spawns_bind _ _ (1 * length test_hosts) 0).
  - apply spawns_for_. intros host.
    apply (spawns_bind _ _ 1 0); [apply spawns_ping_host|].
    intros []; apply spawns_ret.
  - intros [v|]; apply spawns_ret.
Qed.

Lemma spawns_single_host host : spawns_at_most 2 (single_host env host).
Proof.
  unfold single_host. apply (spawns_bind _ _ 1 1); [apply spawns_ping_host|].
  intros []; [|apply (spawns_weaken _ 0); [lia | apply spawns_print]].
  apply (spawns_bind _ _ 1 0); [apply spawns_get_response_time|].
  intros t. destruct (truth t); apply spawns_print.
Qed.

Lemma spawns_monitor_host lg host : spawns_at_most 2 (monitor_host env lg host).
Proof.
  unfold monitor_host. apply (spawns_bind _ _ 1 1); [apply spawns_ping_host|].
  intros [].
  - apply (spawns_bind _ _ 1 0); [apply spawns_get_response_time|]. intros t.
    apply (spawns_bind _ _ 0 0); [apply spawns_print|].
    intros _. apply spawns_when, spawns_log_result.
  - apply (spawns_weaken _ (0 + 0)); [lia|].
    apply spawns_bind; [apply spawns_print|].
    intros _. apply spawns_when, spawns_log_result.
Qed.

Lemma spawns_single_check hosts :
  spawns_at_most (3 + 2 * length hosts) (single_check env hosts).
Proof.
  unfold single_check.
  replace (3 + 2 * length hosts)%nat
    with (0 + (0 + (0 + (3 + (0 + (0 + 2 * length hosts))))))%nat by lia.
  apply spawns_bind; [intros w; cbn; lia|]. intros ts.
  apply spawns_bind; [apply spawns_print|]. intros _.
  apply spawns_bind; [apply spawns_print|]. intros _.
  apply spawns_bind; [apply spawns_check_internet_connection|].
  intros online.
  apply spawns_bind; [destruct online; apply spawns_print|]. intros _.
  apply spawns_bind; [apply spawns_print|]. intros _.
  apply spawns_for_each. intros; apply spawns_single_host.
Qed.

Lemma spawns_monitor_checks hosts lg :
  spawns_at_most (3 + 2 * length hosts) (monitor_checks env hosts lg).
Proof.
  unfold monitor_checks.
  replace (3 + 2 * length hosts)%nat
    with (0 + (0 + (3 + (0 + 2 * length hosts))))%nat by lia.
  apply spawns_bind; [intros w; cbn; lia|]. intros ts.
  apply spawns_bind; [apply spawns_print|]. intros _.
  apply spawns_bind; [apply spawns_check_internet_connection|].
  intros online.
  apply spawns_bind.
  - destruct online; (apply (spawns_bind _ _ 0 0); [apply spawns_print|];
      intros _; apply spawns_when, spawns_log_result).
  - intros _. apply spawns_for_each. intros; apply spawns_monitor_host.
Qed.

End Spawns.

(** X6.  A round never runs more than its share of pings, whatever the
    environment does (answers, failures, timeouts, interrupts): the
    connectivity check runs at most three commands, and the checks of a
    round over [n] hosts, in [single_check] and in [monitor_hosts], at
    most [3 + 2 n]: three anchors and two pings per host. *)
Theorem round_runs_bounded_pings env hosts log_to_file w :
  (length (commands (trace (snd (check_internet_connection env w))))
   <= length (commands (trace w)) + 3)%nat
  /\ (length (commands (trace (snd (single_check env hosts w))))
      <= length (commands (trace w)) + (3 + 2 * length hosts))%nat
  /\ (length (commands (trace (snd (monitor_checks env hosts log_to_file w))))
      <= length (commands (trace w)) + (3 + 2 * length hosts))%nat.
Proof.
  split; [|split].
  - apply spawns_check_internet_connection.
  - apply spawns_single_check.
  - apply spawns_monitor_checks.
Qed.

(** ** The log *)

Lemma appended_app tr1 tr2 : appended (tr1 ++ tr2) = appended tr1 ++ appended tr2.
Proof. apply flat_map_app. Qed.

Lemma appended_spawns tr : Forall is_spawn tr -> appended tr = [].
Proof.
  induction 1 as [|ev tr H _ IH]; [reflexivity|].
  destruct ev; try contradiction. exact IH.
Qed.

Lemma log_result_fails env msg file w e :
  open_error env w file = Some e ->
  isinstance e Exception = true ->
  log_result env msg file w
  = (Return tt, emit (Printed (py "Error writing to log file: " ++ message e)) w).
Proof.
  intros E I. unfold log_result, bind, now_strftime, try_except, append_to.
  rewrite E. cbn [find_handler]. rewrite I. reflexivity.
Qed.

Lemma log_result_writes env msg file w :
  open_error env w file = None ->
  log_result env msg file w
  = (Return tt, emit (Appended file (log_entry env (clock w) msg)) w).
Proof.
  intros E. unfold log_result, bind, now_strftime, try_except, append_to.
  rewrite E. reflexivity.
Qed.

(** X7.  A failure to write the log does not stop a round.  When opening
    or writing the file raises an exception of class [Exception],
    [log_result] returns, and what it has printed is
    ["Error writing to log file: "] with the text of the exception; and
    when no ping is cut short, the checks of a round of [monitor_hosts]
    come to their end whether the log can be written or not. *)
Theorem log_failure_does_not_stop_round env hosts log_to_file :
  uninterrupted env ->
  log_safe env ->
  (forall w, fst (monitor_checks env hosts log_to_file w) = Return tt)
  /\ (forall w file e msg,
        open_error env w file = Some e ->
        fst (log_result env msg file w) = Return tt
        /\ printed (trace (snd (log_result env msg file w)))
           = printed (trace w)
             ++ [py "Error writing to log file: " ++ message e]).
Proof.
  intros U L. split.
  - intros w. rewrite monitor_checks_return by assumption. reflexivity.
  - intros w file e msg E.
    rewrite (log_result_fails env msg file w e E (L _ _ _ E)).
    cbn [fst snd emit trace]. rewrite printed_app. split; reflexivity.
Qed.

Lemma log_failure_does_not_stop_round_witness :
  fst (monitor_checks read_only [host1; host2] true start) = Return tt.
Proof.
  apply (log_failure_does_not_stop_round read_only [host1; host2] true).
  - intros w c. reflexivity.
  - intros w f e H. injection H as <-. reflexivity.
Defined.

Section Logged.

Variable env : Env.
Hypothesis U : uninterrupted env.
Hypothesis W : writable env.

Lemma monitor_pass hosts : forall w,
  exists sts evs w',
    for_each hosts (monitor_host env true) w = (Return tt, w')
    /\ trace w' = trace w ++ evs
    /\ length sts = length hosts
    /\ printed evs =
         map (fun hs => monitor_line (fst hs) (snd hs)) (combine hosts sts)
    /\ commands evs =
         flat_map (fun hs => probe_commands env (fst hs) (snd hs))
           (combine hosts sts)
    /\ Forall2 (logged env) (printed evs) (appended evs).
Proof.
  induction hosts as [|host rest IH]; intros w.
  - exists [], [], w. cbn. rewrite app_nil_r. repeat split; constructor.
  - cbn [for_each]. unfold bind. rewrite monitor_host_eq. cbv zeta.
    rewrite uninterrupted_ping by exact U.
    destruct (succeeds (ping_response env w host)).
    + rewrite uninterrupted_ping by exact U.
      set (st := Reachable _). cbn [when].
      rewrite log_result_writes by apply W.
      set (w2 := emit (Appended _ _) _).
      destruct (IH w2) as (sts & evs & w' & E & T & L & Pr & C & F).
      exists (st :: sts),
        ([Spawn (ping_command env host) (clock w)
            (clock w + ping_time (ping_response env w host));
          Spawn (ping_command env host) (clock (after_ping env w host))
            (clock (after_ping env w host)
             + ping_time (ping_response env (after_ping env w host) host));
          Printed (monitor_line host st);
          Appended default_log_file
            (log_entry env
               (clock (after_ping env (after_ping env w host) host))
               (monitor_line host st))] ++ evs), w'.
      split; [exact E|].
      split; [rewrite T; subst w2; cbn; rewrite <- !app_assoc; reflexivity|].
      split; [cbn; congruence|].
      split; [rewrite printed_app, Pr; reflexivity|].
      split; [rewrite commands_app, C; reflexivity|].
      rewrite printed_app, appended_app. cbn [printed appended flat_map app].
      constructor; [eexists; reflexivity | exact F].
    + cbn [when]. rewrite log_result_writes by apply W.
      set (w1 := emit (Appended _ _) _).
      destruct (IH w1) as (sts & evs & w' & E & T & L & Pr & C & F).
      exists (Unreachable :: sts),
        ([Spawn (ping_command env host) (clock w)
            (clock w + ping_time (ping_response env w host));
          Printed (monitor_line host Unreachable);
          Appended default_log_file
            (log_entry env (clock (after_ping env w host))
               (monitor_line host Unreachable))] ++ evs), w'.
      split; [exact E|].
      split; [rewrite T; subst w1; cbn; rewrite <- !app_assoc; reflexivity|].
      split; [cbn; congruence|].
      split; [rewrite printed_app, Pr; reflexivity|].
      split; [rewrite commands_app, C; reflexivity|].
      rewrite printed_app, appended_app. cbn [printed appended flat_map app].
      constructor; [eexists; reflexivity | exact F].
Qed.

End Logged.

(** X8.  With logging on and a log that can be written, a round of
    [monitor_hosts] prints its header, the line of the connectivity and
    one line per host in the order of the list, and appends to
    [network_monitor.log] one entry ["[time] message"] for the
    connectivity and one per host, in the same order: the entry of a host
    carries the very line printed for it, the entry of the connectivity
    carries the printed line without its mark. *)
Theorem round_logs_what_it_prints env hosts w :
  uninterrupted env ->
  writable env ->
  exists (online : bool) sts evs w',
    monitor_checks env hosts true w = (Return tt, w')
    /\ trace w' = trace w ++ evs
    /\ length sts = length hosts
    /\ (let state := if online then py "ONLINE" else py "OFFLINE" in
        let mark := if online then check_mark else ballot_x in
        let lines :=
          map (fun hs => monitor_line (fst hs) (snd hs)) (combine hosts sts) in
        printed evs =
          ([10] ++ py "--- Network Check at " ++ strftime env (clock w)
           ++ py " ---")
          :: ([mark] ++ py " Internet connection: " ++ state)
          :: lines
        /\ Forall2 (logged env)
             ((py "Internet connection: " ++ state) :: lines)
             (appended evs)).
Proof.
  intros U W.
  unfold monitor_checks, bind, now_strftime, print.
  set (wa := emit _ w).
  destruct (check_internet_connection_eq env wa U)
    as (wc & evc & Ec & Tc & Cc & Pc).
  rewrite Ec.
  assert (Ac : appended evc = []).
  { destruct (steps_check_internet_connection is_spawn (fun _ _ _ => I) env wa)
      as (evs & T & _ & F).
    rewrite Ec in T. cbn [snd] in T. rewrite Tc in T.
    apply app_inv_head in T. subst evs. apply appended_spawns, F. }
  set (online := existsb _ _).
  destruct online eqn:On.
  - cbn [when]. rewrite log_result_writes by apply W.
    set (wb := emit (Appended _ _) _).
    destruct (monitor_pass env U W hosts wb)
      as (sts & evh & w' & Eh & Th & L & Ph & Ch & Fh).
    rewrite Eh.
    exists true, sts,
      ([Printed ([10] ++ py "--- Network Check at " ++ strftime env (clock w)
                 ++ py " ---")] ++ evc
       ++ [Printed ([check_mark] ++ py " Internet connection: ONLINE");
           Appended default_log_file
             (log_entry env (clock wc) (py "Internet connection: ONLINE"))]
       ++ evh), w'.
    split; [reflexivity|].
    split; [rewrite Th; subst wb; cbn [trace emit]; rewrite Tc; subst wa;
            cbn [trace emit]; rewrite <- !app_assoc; reflexivity|].
    split; [exact L|]. cbv zeta. split.
    + rewrite !printed_app, Pc, Ph. reflexivity.
    + rewrite !appended_app, Ac. cbn [appended flat_map app].
      constructor; [eexists; reflexivity | rewrite <- Ph; exact Fh].
  - cbn [when]. rewrite log_result_writes by apply W.
    set (wb := emit (Appended _ _) _).
    destruct (monitor_pass env U W hosts wb)
      as (sts & evh & w' & Eh & Th & L & Ph & Ch & Fh).
    rewrite Eh.
    exists false, sts,
      ([Printed ([10] ++ py "--- Network Check at " ++ strftime env (clock w)
                 ++ py " ---")] ++ evc
       ++ [Printed ([ballot_x] ++ py " Internet connection: OFFLINE");
           Appended default_log_file
             (log_entry env (clock wc) (py "Internet connection: OFFLINE"))]
       ++ evh), w'.
    split; [reflexivity|].
    split; [rewrite Th; subst wb; cbn [trace emit]; rewrite Tc; subst wa;
            cbn [trace emit]; rewrite <- !app_assoc; reflexivity|].
    split; [exact L|]. cbv zeta. split.
    + rewrite !printed_app, Pc, Ph. reflexivity.
    + rewrite !appended_app, Ac. cbn [appended flat_map app].
      constructor; [eexists; reflexivity | rewrite <- Ph; exact Fh].
Qed.

Lemma round_logs_what_it_prints_witness :
  exists (online : bool) sts evs w',
    monitor_checks all_down [host1; host2] true start = (Return tt, w')
    /\ trace w' = trace start ++ evs
    /\ length sts = length [host1; host2]
    /\ (let state := if online then py "ONLINE" else py "OFFLINE" in
        let mark := if online then check_mark else ballot_x in
        let lines :=
          map (fun hs => monitor_line (fst hs) (snd hs))
            (combine [host1; host2] sts) in
        printed evs =
          ([10] ++ py "--- Network Check at " ++ strftime all_down (clock start)
           ++ py " ---")
          :: ([mark] ++ py " Internet connection: " ++ state)
          :: lines
        /\ Forall2 (logged all_down)
             ((py "Internet connection: " ++ state) :: lines)
             (appended evs)).
Proof.
  apply (round_logs_what_it_prints all_down [host1; host2] start).
  - intros w c. reflexivity.
  - intros w f. reflexivity.
Defined.

(** ** What the pattern can match *)

Lemma iterate_digits_inv {R} n : forall s g (k : str -> option str -> option R) m,
  iterate (backtrack (Class isdecimal)) n s g k = Some m ->
  exists ds rest, s = ds ++ rest /\ digits ds /\ k rest g = Some m.
Proof.
  induction n as [|n IH]; intros s g k m; cbn [iterate];
    (destruct s as [|c s1]; [discriminate|]);
    rewrite backtrack_class_cons; destruct (isdecimal c) eqn:Hc;
    try discriminate.
  - intros H. exists [c], s1. repeat split; [discriminate | auto | exact H].
  - destruct (length s1 <? length (c :: s1))%nat.
    + destruct (iterate (backtrack (Class isdecimal)) n s1 g k) as [m'|] eqn:E.
      * intros H. injection H as <-.
        destruct (IH _ _ _ _ E) as (ds & rest & -> & [_ Hd] & Hk).
        exists (c :: ds), rest. repeat split; [discriminate | auto | exact Hk].
      * intros H. exists [c], s1. repeat split; [discriminate | auto | exact H].
    + intros H. exists [c], s1. repeat split; [discriminate | auto | exact H].
Qed.

Lemma backtrack_many1 {R} r s g (k : str -> option str -> option R) :
  backtrack (Many1 r) s g k = iterate (backtrack r) (length s) s g k.
Proof. reflexivity. Qed.

Lemma many1_digits_inv {R} s g (k : str -> option str -> option R) m :
  backtrack (Many1 (Class isdecimal)) s g k = Some m ->
  exists ds rest, s = ds ++ rest /\ digits ds /\ k rest g = Some m.
Proof. rewrite backtrack_many1. apply iterate_digits_inv. Qed.

Lemma number_inv {R} s g (k : str -> option str -> option R) m :
  backtrack number s g k = Some m ->
  exists t rest, s = t ++ rest /\ number_text t /\ k rest g = Some m.
Proof.
  unfold number. rewrite backtrack_cat. intros H.
  apply many1_digits_inv in H. destruct H as (ip & r1 & -> & Hip & H).
  rewrite backtrack_maybe in H.
  destruct (backtrack (Cat (Lit 46) (Many1 (Class isdecimal))) r1 g k)
    as [m'|] eqn:E.
  - injection H as ->. rewrite backtrack_cat in E.
    destruct r1 as [|x r2]; [discriminate|].
    rewrite backtrack_lit_cons in E.
    destruct (x =? 46) eqn:Hx; [|discriminate].
    apply Z.eqb_eq in Hx. subst x.
    apply many1_digits_inv in E. destruct E as (fp & rest & -> & Hfp & Hk).
    exists (ip ++ [46] ++ fp), rest. repeat split.
    + rewrite <- !app_assoc. reflexivity.
    + right. exists ip, fp. auto.
    + exact Hk.
  - exists ip, r1. repeat split; [left; exact Hip | exact H].
Qed.

Lemma unit_inv rest g m :
  backtrack (Cat (Maybe (Lit 109)) (Lit 115)) rest g
    (fun _ g' => Some {| group1 := g' |}) = Some m ->
  m = {| group1 := g |}.
Proof.
  cbn [backtrack].
  destruct rest as [|c r]; [discriminate|].
  destruct (c =? 109).
  - destruct r as [|d r']; [destruct (c =? 115); congruence|].
    destruct (d =? 115); [congruence|].
    destruct (c =? 115); congruence.
  - destruct (c =? 115); congruence.
Qed.

Lemma match_time_inv s m :
  match_ time_pattern s = Some m ->
  exists t, group1 m = Some t /\ number_text t.
Proof.
  unfold match_, time_pattern.
  change (py "time") with [116; 105; 109; 101]. cbn [lits].
  do 4 (rewrite backtrack_cat; destruct s as [|? s]; [discriminate|];
        rewrite backtrack_lit_cons; destruct (_ =? _); [|discriminate]).
  rewrite backtrack_cat. destruct s as [|c5 s]; [discriminate|].
  rewrite backtrack_class_cons. destruct (_ || _); [|discriminate].
  rewrite backtrack_cat, backtrack_group. intros H.
  apply number_inv in H. destruct H as (t & rest & -> & Ht & H).
  rewrite firstn_consumed in H. apply unit_inv in H. subst m.
  exists t. auto.
Qed.

Lemma search_inv r s m :
  search r s = Some m -> exists pre s', s = pre ++ s' /\ match_ r s' = Some m.
Proof.
  induction s as [|c s IH]; cbn [search].
  - destruct (match_ r []) eqn:E; [|discriminate].
    intros H. injection H as <-. exists [], []. auto.
  - destruct (match_ r (c :: s)) eqn:E.
    + intros H. injection H as <-. exists [], (c :: s). auto.
    + intros H. destruct (IH H) as (pre & s' & -> & Hm).
      exists (c :: pre), s'. auto.
Qed.

(** X9.  What the pattern matches, [float()] can read: the text of group
    1 is always digits, or digits, a point and digits, so the conversion
    never raises, and [get_response_time] returns a time whenever the ping
    succeeded, its output holds ["time="] and the pattern matches. *)
Theorem matched_time_is_read env w host p m :
  succeeds (ping_response env w host) = true ->
  ending_of (ping_response env w host) = Exits p ->
  contains (py "time=") (stdout p) = true ->
  search time_pattern (stdout p) = Some m ->
  exists t x,
    group1 m = Some t
    /\ number_text t
    /\ float_of_str t = Some x
    /\ get_response_time env host w = (Return (Some x), after_ping env w host).
Proof.
  intros S E C H.
  destruct (search_inv _ _ _ H) as (pre & s' & _ & Hm).
  destruct (match_time_inv _ _ Hm) as (t & Hg & Ht).
  destruct (float_of_number t Ht) as (x & Hx).
  exists t, x. repeat split; auto.
  rewrite get_response_time_eq, (succeeds_not_cancelled _ S).
  unfold latency, parsed_time. rewrite S, E, C, H, Hg, Hx. reflexivity.
Qed.

Lemma matched_time_is_read_witness :
  exists t x,
    group1 {| group1 := Some (py "12") |} = Some t
    /\ number_text t
    /\ float_of_str t = Some x
    /\ get_response_time (all_up 12 windows_reply) host1 start
       = (Return (Some x), after_ping (all_up 12 windows_reply) start host1).
Proof.
  apply (matched_time_is_read (all_up 12 windows_reply) start host1
           {| returncode := 0; stdout := windows_reply |}
           {| group1 := Some (py "12") |}).
  - reflexivity.
  - reflexivity.
  - reflexivity.
  - vm_compute. reflexivity.
Defined.

(** ** The layout of [single_check] *)

Lemma single_line_shape host st :
  exists rest,
    single_line host st
    = ljust 20 host
      ++ 32 :: match st with Unreachable => ballot_x | Reachable _ => check_mark end
      :: rest.
Proof.
  destruct st as [|t]; cbn [single_line]; [eexists; reflexivity|].
  destruct (truth t); eexists; reflexivity.
Qed.

Lemma firstn_exact {A} (l r : list A) n : length l = n -> firstn n (l ++ r) = l.
Proof.
  intros <-. rewrite firstn_app, Nat.sub_diag, firstn_all. cbn [firstn].
  apply app_nil_r.
Qed.

Lemma nth_after {A} (l r : list A) n k j d :
  length l = n -> j = (n + k)%nat -> nth j (l ++ r) d = nth k r d.
Proof.
  intros <- ->. rewrite app_nth2 by lia. f_equal. lia.
Qed.

(** X10.  In the lines of [single_check] a host name is never cut: the
    line begins with the whole name, filled with blanks up to 20
    characters when it is shorter, and goes on with a blank and the mark.
    So the mark of every host whose name has at most 20 characters stands
    in the same column, the 22nd, and a longer name moves it to the
    right. *)
Theorem host_lines_align host st :
  let line := single_line host st in
  let mark := match st with Unreachable => ballot_x | Reachable _ => check_mark end in
  let width := Nat.max 20 (length host) in
  firstn (length host) line = host
  /\ firstn width line = host ++ repeat 32 (20 - length host)
  /\ nth width line 0 = 32
  /\ nth (S width) line 0 = mark
  /\ ((length host <= 20)%nat -> nth 21 line 0 = mark).
Proof.
  cbv zeta. destruct (single_line_shape host st) as (rest & ->).
  unfold ljust. split.
  { rewrite <- app_assoc. apply firstn_exact. reflexivity. }
  assert (Hl : length (host ++ repeat 32 (20 - length host))
               = Nat.max 20 (length host)).
  { rewrite length_app, repeat_length. lia. }
  revert Hl. generalize (host ++ repeat 32 (20 - length host)). intros l Hl.
  repeat split.
  - apply firstn_exact, Hl.
  - rewrite (nth_after l _ _ 0 _ 0 Hl); [reflexivity | lia].
  - rewrite (nth_after l _ _ 1 _ 0 Hl); [reflexivity | lia].
  - intros H. rewrite (nth_after l _ _ 1 _ 0 Hl); [reflexivity | lia].
Qed.

Lemma host_lines_align_witness :
  nth 21 (single_line host1 Unreachable) 0 = ballot_x
  /\ nth 21 (single_line (py "github.com") (Reachable None)) 0 = check_mark.
Proof.
  split.
  - apply (host_lines_align host1 Unreachable). cbn. lia.
  - apply (host_lines_align (py "github.com") (Reachable None)). cbn. lia.
Defined.

(** ** The menu *)

Lemma exception_is_not_interrupt e :
  isinstance e Exception = true -> isinstance e KeyboardInterrupt = false.
Proof. unfold isinstance. destruct (class_of e); cbn; congruence. Qed.


Lemma try_except_bind_Return {A B} (m : M A) (k : A -> M B) clauses w a w1 :
  m w = (Return a, w1) ->
  try_except (bind m k) clauses w = try_except (k a) clauses w1.
Proof. intros E. unfold try_except, bind. rewrite E. reflexivity. Qed.

Lemma try_except_bind_Raise {A B} (m : M A) (k : A -> M B) clauses w e w1 :
  m w = (Raise e, w1) ->
  try_except (bind m k) clauses w =
  match find_handler clauses e with
  | Some h => h w1
  | None => (Raise e, w1)
  end.
Proof. intros E. unfold try_except, bind. rewrite E. reflexivity. Qed.


Section MenuFacts.

Variable env : Env.
Variable term : Terminal.

Lemma input_Typed prompt w line :
  given (keyboard term w) = Typed line ->
  input_ term prompt w = (Return line, after_input term prompt w).
Proof. intros E. unfold input_. rewrite E. reflexivity. Qed.

Lemma input_Broken prompt w e :
  given (keyboard term w) = Broken e ->
  input_ term prompt w = (Raise e, after_input term prompt w).
Proof. intros E. unfold input_. rewrite E. reflexivity. Qed.

Lemma main_unfold turns rounds w :
  main env term turns rounds w
  = while_true_break turns (menu_turn env term rounds) (after_banner w).
Proof. reflexivity. Qed.

(** A turn of the menu on a typed line, after the prompt. *)
Lemma menu_turn_Typed rounds w line :
  given (keyboard term w) = Typed line ->
  menu_turn env term rounds w =
  try_except
    (let choice := strip line in
     if str_eqb choice (py "1") then
       single_check env default_hosts ;;
       ret false
     else if str_eqb choice (py "2") then
       try_except
         (typed <- input_ term interval_prompt ;;
          interval <- int_ (or_ typed (py "60")) ;;
          monitor_hosts env rounds default_hosts interval true)
         [ (ValueError, fun _ =>
              print (py "Invalid interval. Using default 60 seconds.") ;;
              monitor_hosts env rounds default_hosts 60 true) ] ;;
       ret false
     else if str_eqb choice (py "3") then
       print (py "Exiting...") ;;
       ret true
     else
       print (py "Invalid option. Please select 1-3.") ;;
       ret false)
    menu_clauses (after_input term menu_prompt w).
Proof.
  intros E. unfold menu_turn.
  rewrite (try_except_bind_Return _ _ _ _ _ _ (input_Typed _ _ _ E)).
  reflexivity.
Qed.

End MenuFacts.

(** X11.  Option 3 leaves the menu: when the first line typed is ["3"],
    with or without blanks around it, [main] prints ["Exiting..."] and
    returns; nothing was pinged and nothing was logged. *)
Theorem menu_exits_on_three env term turns rounds w line :
  given (keyboard term (after_banner w)) = Typed line ->
  strip line = py "3" ->
  main env term (S turns) rounds w
  = (Return tt,
     emit (Printed (py "Exiting..."))
       (after_input term menu_prompt (after_banner w))).
Proof.
  intros E S3. rewrite main_unfold. cbn [while_true_break]. unfold bind at 1.
  rewrite (menu_turn_Typed env term rounds _ _ E). cbv zeta. rewrite S3.
  reflexivity.
Qed.

Lemma menu_exits_on_three_witness :
  main all_down (typing [py "  3 "]) 2 2 start
  = (Return tt,
     emit (Printed (py "Exiting..."))
       (after_input (typing [py "  3 "]) menu_prompt (after_banner start))).
Proof.
  apply (menu_exits_on_three all_down (typing [py "  3 "]) 1 2 start (py "  3 ")).
  - reflexivity.
  - reflexivity.
Defined.

(** X12.  Ctrl+C at the prompt of the menu leaves it too: [main] prints
    ["Exiting..."] after a line break and returns. *)
Theorem menu_exits_on_ctrl_c env term turns rounds w e :
  given (keyboard term (after_banner w)) = Broken e ->
  isinstance e KeyboardInterrupt = true ->
  main env term (S turns) rounds w
  = (Return tt,
     emit (Printed ([10] ++ py "Exiting..."))
       (after_input term menu_prompt (after_banner w))).
Proof.
  intros E K. rewrite main_unfold. cbn [while_true_break]. unfold bind at 1.
  unfold menu_turn.
  rewrite (try_except_bind_Raise _ _ _ _ _ _ (input_Broken _ _ _ _ E)).
  cbn [find_handler]. rewrite K. reflexivity.
Qed.

Lemma menu_exits_on_ctrl_c_witness :
  main all_down hasty 1 1 start
  = (Return tt,
     emit (Printed ([10] ++ py "Exiting..."))
       (after_input hasty menu_prompt (after_banner start))).
Proof.
  apply (menu_exits_on_ctrl_c all_down hasty 0 1 start ctrl_c).
  - reflexivity.
  - reflexivity.
Defined.

(** X13.  A line that is none of 1, 2 and 3 does nothing but cost a
    message: the turn prints ["Invalid option. Please select 1-3."] and
    the menu asks again. *)
Theorem invalid_choice_asks_again env term turns rounds w line :
  given (keyboard term w) = Typed line ->
  strip line <> py "1" ->
  strip line <> py "2" ->
  strip line <> py "3" ->
  let w' := emit (Printed (py "Invalid option. Please select 1-3."))
              (after_input term menu_prompt w) in
  menu_turn env term rounds w = (Return false, w')
  /\ while_true_break (S turns) (menu_turn env term rounds) w
     = while_true_break turns (menu_turn env term rounds) w'.
Proof.
  intros E N1 N2 N3 w'.
  assert (T : menu_turn env term rounds w = (Return false, w')).
  { rewrite (menu_turn_Typed env term rounds _ _ E). cbv zeta.
    replace (str_eqb (strip line) (py "1")) with false
      by (symmetry; apply not_true_iff_false; rewrite str_eqb_eq; exact N1).
    replace (str_eqb (strip line) (py "2")) with false
      by (symmetry; apply not_true_iff_false; rewrite str_eqb_eq; exact N2).
    replace (str_eqb (strip line) (py "3")) with false
      by (symmetry; apply not_true_iff_false; rewrite str_eqb_eq; exact N3).
    reflexivity. }
  split; [exact T|].
  cbn [while_true_break]. unfold bind at 1. rewrite T. reflexivity.
Qed.

Lemma invalid_choice_asks_again_witness :
  menu_turn all_down (typing [py "4"]) 1 start
  = (Return false,
     emit (Printed (py "Invalid option. Please select 1-3."))
       (after_input (typing [py "4"]) menu_prompt start)).
Proof.
  apply (invalid_choice_asks_again all_down (typing [py "4"]) 0 1 start (py "4")).
  - reflexivity.
  - discriminate.
  - discriminate.
  - discriminate.
Defined.

Lemma menu_turn_error env term rounds w e :
  given (keyboard term w) = Broken e ->
  isinstance e Exception = true ->
  menu_turn env term rounds w
  = (Return false,
     emit (Printed (py "Error: " ++ message e)) (after_input term menu_prompt w)).
Proof.
  intros E X. unfold menu_turn.
  rewrite (try_except_bind_Raise _ _ _ _ _ _ (input_Broken _ _ _ _ E)).
  cbn [find_handler]. rewrite (exception_is_not_interrupt _ X), X.
  reflexivity.
Qed.

(** X14.  An error of [input()] does not end the menu either, and when
    the error stays (the input is at its end), [main] never returns: turn
    after turn it prints ["Error: "] and the text of the exception and
    asks again, without ever pinging. *)
Theorem menu_never_exits_on_errors env term rounds :
  (forall w, exists e,
      given (keyboard term w) = Broken e /\ isinstance e Exception = true) ->
  forall turns w,
    fst (main env term turns rounds w) = Running
    /\ commands (trace (snd (main env term turns rounds w))) = commands (trace w)
    /\ length (printed (trace (snd (main env term turns rounds w))))
       = (length (printed (trace w)) + 5 + 2 * turns)%nat.
Proof.
  intros H turns w. rewrite main_unfold.
  assert (G : forall w0,
    fst (while_true_break turns (menu_turn env term rounds) w0) = Running
    /\ commands (trace (snd (while_true_break turns (menu_turn env term rounds) w0)))
       = commands (trace w0)
    /\ length (printed (trace (snd (while_true_break turns
                                      (menu_turn env term rounds) w0))))
       = (length (printed (trace w0)) + 2 * turns)%nat).
  { induction turns as [|turns IH]; intros w0.
    - cbn. repeat split. lia.
    - destruct (H w0) as (e & E & X).
      cbn [while_true_break]. unfold bind.
      rewrite (menu_turn_error env term rounds w0 e E X).
      destruct (IH (emit (Printed (py "Error: " ++ message e))
                      (after_input term menu_prompt w0))) as (I1 & I2 & I3).
      rewrite I1, I2, I3. unfold after_input. cbn [trace emit advance].
      rewrite !commands_app, !printed_app, !length_app. cbn.
      rewrite !app_nil_r. repeat split. lia. }
  destruct (G (after_banner w)) as (G1 & G2 & G3).
  rewrite G1, G2, G3. unfold after_banner. cbn [trace emit].
  rewrite !commands_app, !printed_app, !length_app. cbn.
  rewrite !app_nil_r. repeat split. lia.
Qed.

Lemma menu_never_exits_on_errors_witness :
  fst (main all_down (typing []) 7 1 start) = Running.
Proof.
  apply (menu_never_exits_on_errors all_down (typing []) 1).
  intros w. eexists. unfold typing. cbn [keyboard given].
  destruct (prompts (trace w)); cbn [nth_error]; split; reflexivity.
Defined.

Lemma try_except_bind_congr {A B} (m1 m2 : M A) (k : A -> M B) clauses w1 w2 :
  m1 w1 = m2 w2 ->
  try_except (bind m1 k) clauses w1 = try_except (bind m2 k) clauses w2.
Proof. intros E. unfold try_except, bind. rewrite E. reflexivity. Qed.

Section Intervals.

Variable env : Env.
Variable term : Terminal.

Lemma menu_turn_two rounds w line :
  given (keyboard term w) = Typed line ->
  strip line = py "2" ->
  menu_turn env term rounds w
  = try_except (ask_interval env term rounds ;; ret false) menu_clauses
      (after_input term menu_prompt w).
Proof.
  intros E S2. rewrite (menu_turn_Typed env term rounds _ _ E). cbv zeta.
  rewrite S2. reflexivity.
Qed.

Lemma ask_interval_bad rounds w typed :
  given (keyboard term w) = Typed typed ->
  int_of_str (or_ typed (py "60")) = None ->
  ask_interval env term rounds w
  = monitor_hosts env rounds default_hosts 60 true
      (emit (Printed invalid_interval)
         (after_input term interval_prompt w)).
Proof.
  intros E N. unfold ask_interval.
  rewrite (try_except_bind_Return _ _ _ _ _ _ (input_Typed _ _ _ _ E)).
  unfold int_. rewrite N. reflexivity.
Qed.


Lemma ask_interval_negative rounds w typed n :
  uninterrupted env ->
  log_safe env ->
  given (keyboard term w) = Typed typed ->
  int_of_str (or_ typed (py "60")) = Some n ->
  n < 0 ->
  ask_interval env term (S rounds) w
  = monitor_hosts env (S rounds) default_hosts 60 true
      (emit (Printed invalid_interval)
         (at_first_sleep env default_hosts n true
            (after_input term interval_prompt w))).
Proof.
  intros U L E N Hn. unfold ask_interval.
  rewrite (try_except_bind_Return _ _ _ _ _ _ (input_Typed _ _ _ _ E)).
  unfold int_. rewrite N.
  change (bind (ret n) ?k) with (fun w0 : World => k n w0).
  unfold try_except. rewrite monitor_hosts_negative by assumption.
  reflexivity.
Qed.

End Intervals.

(** X15.  An interval that [int()] cannot read does not fail option 2:
    the turn prints ["Invalid interval. Using default 60 seconds."] and
    goes on as [monitor_hosts] over the default hosts with an interval of
    60 seconds and logging on. *)
Theorem bad_interval_falls_back env term rounds w line typed :
  given (keyboard term w) = Typed line ->
  strip line = py "2" ->
  given (keyboard term (after_input term menu_prompt w)) = Typed typed ->
  int_of_str (or_ typed (py "60")) = None ->
  menu_turn env term rounds w
  = try_except
      (monitor_hosts env rounds default_hosts 60 true ;; ret false)
      menu_clauses
      (emit (Printed invalid_interval)
         (after_input term interval_prompt (after_input term menu_prompt w))).
Proof.
  intros E S2 E2 N. rewrite (menu_turn_two env term rounds w line E S2).
  apply try_except_bind_congr, (ask_interval_bad env term rounds _ typed);
    assumption.
Qed.

Lemma bad_interval_falls_back_witness :
  menu_turn all_down (typing [py "2"; py "soon"]) 1 start
  = try_except
      (monitor_hosts all_down 1 default_hosts 60 true ;; ret false)
      menu_clauses
      (emit (Printed invalid_interval)
         (after_input (typing [py "2"; py "soon"]) interval_prompt
            (after_input (typing [py "2"; py "soon"]) menu_prompt start))).
Proof.
  apply (bad_interval_falls_back all_down (typing [py "2"; py "soon"]) 1 start
           (py "2") (py "soon")); reflexivity.
Defined.



(** X17.  A negative interval is read by [int()] and handed to
    [monitor_hosts], which fails only at its first sleep; the
    [ValueError] of that sleep is taken for one of [int()]: the warning
    is printed after a whole round was run and announced, and the monitor
    starts a second time, with 60 seconds. *)
Theorem negative_interval_runs_twice env term rounds w line typed n :
  uninterrupted env ->
  log_safe env ->
  given (keyboard term w) = Typed line ->
  strip line = py "2" ->
  given (keyboard term (after_input term menu_prompt w)) = Typed typed ->
  int_of_str (or_ typed (py "60")) = Some n ->
  n < 0 ->
  menu_turn env term (S rounds) w
  = try_except
      (monitor_hosts env (S rounds) default_hosts 60 true ;; ret false)
      menu_clauses
      (emit (Printed invalid_interval)
         (at_first_sleep env default_hosts n true
            (after_input term interval_prompt
               (after_input term menu_prompt w)))).
Proof.
  intros U L E S2 E2 N Hn.
  rewrite (menu_turn_two env term (S rounds) w line E S2).
  apply try_except_bind_congr, (ask_interval_negative env term rounds _ typed);
    assumption.
Qed.

Lemma negative_interval_runs_twice_witness :
  menu_turn all_down (typing [py "2"; py "-5"]) 1 start
  = try_except
      (monitor_hosts all_down 1 default_hosts 60 true ;; ret false)
      menu_clauses
      (emit (Printed invalid_interval)
         (at_first_sleep all_down default_hosts (-5) true
            (after_input (typing [py "2"; py "-5"]) interval_prompt
               (after_input (typing [py "2"; py "-5"]) menu_prompt start)))).
Proof.
  apply (negative_interval_runs_twice all_down (typing [py "2"; py "-5"]) 0
           start (py "2") (py "-5") (-5)).
  - intros w c. reflexivity.
  - intros w f e. discriminate.
  - reflexivity.
  - reflexivity.
  - reflexivity.
  - reflexivity.
  - lia.
Defined.

(** X18.  Option 1 runs [single_check] over the default hosts.  When
    the check comes to its end the menu asks again; when it is cut by
    Ctrl+C, the interrupt is not taken back to the menu as it is in the
    monitor: [main] prints ["Exiting..."] and leaves its loop. *)
Theorem option_one_checks_once env term rounds w line :
  given (keyboard term w) = Typed line ->
  strip line = py "1" ->
  let w1 := after_input term menu_prompt w in
  (forall w', single_check env default_hosts w1 = (Return tt, w') ->
     menu_turn env term rounds w = (Return false, w'))
  /\ (forall e w', single_check env default_hosts w1 = (Raise e, w') ->
        isinstance e KeyboardInterrupt = true ->
        menu_turn env term rounds w
        = (Return true, emit (Printed ([10] ++ py "Exiting...")) w')).
Proof.
  intros E S1 w1. rewrite (menu_turn_Typed env term rounds _ _ E). cbv zeta.
  rewrite S1. change (str_eqb (py "1") (py "1")) with true. cbv iota.
  fold w1. split.
  - intros w' R. unfold try_except, bind. rewrite R. reflexivity.
  - intros e w' R K. unfold try_except, bind. rewrite R.
    unfold menu_clauses. cbn [find_handler]. rewrite K. reflexivity.
Qed.

Lemma option_one_checks_once_witness :
  menu_turn all_down (typing [py "1"]) 1 start
  = (Return false,
     snd (single_check all_down default_hosts
            (after_input (typing [py "1"]) menu_prompt start))).
Proof.
  apply (option_one_checks_once all_down (typing [py "1"]) 1 start (py "1")).
  - reflexivity.
  - reflexivity.
  - vm_compute. reflexivity.
Defined.

(** ** Sample sessions *)

(** [int()] on a few texts. *)
Example int_of_texts :
  map int_of_str
    [py "60"; py " 60 "; py "-5"; py "1_0"; py "007"; []; py "sixty";
     py "60.0"; py "6 0"; py "1__0"; py "+"]
  = [Some 60; Some 60; Some (-5); Some 10; Some 7; None; None; None; None;
     None; None].
Proof. vm_compute. reflexivity. Qed.

(** A session: a wrong choice, a single check, then option 3. *)
Example session_check_and_exit :
  let '(r, w) := main all_down (typing [py "x"; py "1"; py "3"]) 5 1 start in
  r = Return tt
  /\ length (commands (trace w)) = 8%nat
  /\ last (printed (trace w)) [] = py "Exiting..."
  /\ sleeps (trace w) = [].
Proof. vm_compute. repeat split. Qed.

(** A session: a negative interval, Ctrl+C in the first sleep of the
    second start, then the end of the input. *)
Example session_negative_interval :
  let '(r, w) := main stopped_early (typing [py "2"; py "-1"]) 3 2 start in
  r = Running
  /\ length (filter (str_eqb (py "Starting Network Monitor...")) (printed (trace w)))
     = 2%nat
  /\ sleeps (trace w) = [60].
Proof. vm_compute. repeat split. Qed.
